(** * Document-Summariser: extraction dispatch, bounding and reply decoding

    A shallow embedding of the pipeline of the Document-Summariser front end:

    - [src/src/lib/extractPdfText.js]  (module [Pdf])
    - [src/src/lib/ocrImage.js]        (module [Ocr])
    - [src/src/lib/gemini.js]          (module [Gemini])
    - [src/src/App.jsx], the functions [extractTextFromFile] and
      [handleSummarise]              (module [App])

    JavaScript strings are sequences of UTF-16 code units; [length],
    [slice], [trim], [startsWith] and the regular expression of the decoder
    all work on code units, so a string is modelled as a list of code units.
    [await] is sequential in this program (one extraction, then one remote
    call), so asynchronous functions are modelled as computations in a state
    and exception monad whose state is the browser-side world: the component
    state of [App] and the log of requests handed to [fetch]. *)

From Stdlib Require Import List ZArith NArith Lia Bool String Ascii DecimalString.
Import ListNotations.

Set Warnings "-register-all".

(** ** The JavaScript runtime used by the program *)

Module JS.

(** A UTF-16 code unit. *)
Definition char16 := N.

(** A JavaScript string: its code units, in order. *)
Definition jsstring := list char16.

(** The code units of an ASCII literal of the source. *)
Definition lit (s : string) : jsstring :=
  map N_of_ascii (list_ascii_of_string s).

Definition LF : char16 := 10%N.
Definition DQUOTE : char16 := 34%N.
Definition LBRACE : char16 := 123%N.
Definition RBRACE : char16 := 125%N.

(** A literal between double quotes, as it stands inside a template. *)
Definition quoted (s : string) : jsstring := DQUOTE :: lit s ++ [DQUOTE].

Fixpoint str_eqb (a b : jsstring) : bool :=
  match a, b with
  | [], [] => true
  | x :: a', y :: b' => N.eqb x y && str_eqb a' b'
  | _, _ => false
  end.

(** [String.prototype.startsWith(p)] with the default position 0. *)
Fixpoint startsWith (s p : jsstring) {struct p} : bool :=
  match p with
  | [] => true
  | y :: p' =>
      match s with
      | [] => false
      | x :: s' => N.eqb x y && startsWith s' p'
      end
  end.

(** [s.includes(p)]: [p] occurs in [s] as a contiguous run of code units. *)
Fixpoint includes (s p : jsstring) : bool :=
  startsWith s p ||
  match s with
  | [] => false
  | _ :: s' => includes s' p
  end.

(** WhiteSpace and LineTerminator code units of ECMAScript: what
    [String.prototype.trim] strips. *)
Definition is_white_space (c : char16) : bool :=
  (N.leb 9 c && N.leb c 13)            (* TAB LF VT FF CR *)
  || N.eqb c 32 || N.eqb c 160         (* SP, NBSP *)
  || N.eqb c 5760                      (* U+1680 *)
  || (N.leb 8192 c && N.leb c 8202)    (* U+2000 .. U+200A *)
  || N.eqb c 8232 || N.eqb c 8233      (* LS, PS *)
  || N.eqb c 8239 || N.eqb c 8287      (* U+202F, U+205F *)
  || N.eqb c 12288 || N.eqb c 65279.   (* U+3000, BOM *)

Fixpoint trimStart (s : jsstring) : jsstring :=
  match s with
  | [] => []
  | c :: s' => if is_white_space c then trimStart s' else s
  end.

Definition trimEnd (s : jsstring) : jsstring := rev (trimStart (rev s)).

Definition trim (s : jsstring) : jsstring := trimEnd (trimStart s).

(** [String.prototype.slice(start, end)] on integer arguments: negative
    indices count from the end, both are clamped to the string. *)
Definition slice (s : jsstring) (start stop : Z) : jsstring :=
  let len := Z.of_nat (List.length s) in
  let from := if (start <? 0)%Z then Z.max (len + start) 0 else Z.min start len in
  let to := if (stop <? 0)%Z then Z.max (len + stop) 0 else Z.min stop len in
  let span := Z.max (to - from) 0 in
  firstn (Z.to_nat span) (skipn (Z.to_nat from) s).

(** [Array.prototype.join(sep)] on an array of strings. *)
Fixpoint join (sep : jsstring) (xs : list jsstring) : jsstring :=
  match xs with
  | [] => []
  | [x] => x
  | x :: rest => x ++ sep ++ join sep rest
  end.

(** ToBoolean of a value that is a string or [undefined]. *)
Definition truthy (v : option jsstring) : bool :=
  match v with
  | None => false
  | Some [] => false
  | Some (_ :: _) => true
  end.

(** An [Error] object: its constructor name and its [message]. *)
Record JsError := mkError { ename : jsstring; message : jsstring }.

Definition Error (msg : jsstring) : JsError := mkError (lit "Error") msg.
Definition TypeError (msg : jsstring) : JsError := mkError (lit "TypeError") msg.
Definition SyntaxError (msg : jsstring) : JsError := mkError (lit "SyntaxError") msg.
Definition RangeError (msg : jsstring) : JsError := mkError (lit "RangeError") msg.

(** The completion of an evaluation: a value, or a thrown error (a rejected
    promise, for an asynchronous function). *)
Inductive Completion (A : Type) : Type :=
| Normal (a : A)
| Throw (e : JsError).

Arguments Normal {A} a.
Arguments Throw {A} e.

(** [try { body } catch (e) { handler e }] on completions. *)
Definition try_catch {A} (body : Completion A) (handler : JsError -> Completion A)
  : Completion A :=
  match body with
  | Normal a => Normal a
  | Throw e => handler e
  end.

(** *** JSON values and [JSON.parse] *)

(** A value of JSON. A number keeps the text of its literal: its value as
    a double is never inspected by this program. An object keeps its own
    properties as an association list, one entry per key. *)
Inductive Json : Type :=
| JNull
| JBool (b : bool)
| JNum (lexeme : jsstring)
| JStr (s : jsstring)
| JArr (elems : list Json)
| JObj (props : list (jsstring * Json)).

(** Reading an own property; [None] is [undefined]. *)
Fixpoint get_prop (props : list (jsstring * Json)) (k : jsstring) : option Json :=
  match props with
  | [] => None
  | (k', v) :: rest => if str_eqb k' k then Some v else get_prop rest k
  end.

(** Defining a property while parsing: a repeated key overwrites the
    earlier value and keeps its place. *)
Fixpoint set_prop (props : list (jsstring * Json)) (k : jsstring) (v : Json)
  : list (jsstring * Json) :=
  match props with
  | [] => [(k, v)]
  | (k', v') :: rest =>
      if str_eqb k' k then (k, v) :: rest else (k', v') :: set_prop rest k v
  end.

Definition is_json_ws (c : char16) : bool :=
  N.eqb c 32 || N.eqb c 9 || N.eqb c 10 || N.eqb c 13.

Fixpoint skip_ws (s : jsstring) : jsstring :=
  match s with
  | [] => []
  | c :: s' => if is_json_ws c then skip_ws s' else s
  end.

Definition is_digit (c : char16) : bool := N.leb 48 c && N.leb c 57.

Definition hex_val (c : char16) : option N :=
  if is_digit c then Some (c - 48)%N
  else if N.leb 97 c && N.leb c 102 then Some (c - 87)%N
  else if N.leb 65 c && N.leb c 70 then Some (c - 55)%N
  else None.

(** The code unit of a one-letter escape. *)
Definition simple_escape (c : char16) : option char16 :=
  if N.eqb c 34 then Some 34%N          (* quotation mark *)
  else if N.eqb c 92 then Some 92%N     (* reverse solidus *)
  else if N.eqb c 47 then Some 47%N     (* solidus *)
  else if N.eqb c 98 then Some 8%N      (* b: backspace *)
  else if N.eqb c 102 then Some 12%N    (* f: form feed *)
  else if N.eqb c 110 then Some 10%N    (* n: line feed *)
  else if N.eqb c 114 then Some 13%N    (* r: carriage return *)
  else if N.eqb c 116 then Some 9%N     (* t: tab *)
  else None.

(** The characters of a string literal after its opening quote, up to and
    including the closing quote; [acc] holds the decoded code units so far,
    latest first. *)
Fixpoint lex_string (s : jsstring) (acc : jsstring) : option (jsstring * jsstring) :=
  match s with
  | [] => None
  | c :: r =>
      if N.eqb c 34 then Some (rev acc, r)
      else if N.eqb c 92 then
        match r with
        | [] => None
        | e :: r1 =>
            match simple_escape e with
            | Some u => lex_string r1 (u :: acc)
            | None =>
                if N.eqb e 117 then
                  match r1 with
                  | h1 :: h2 :: h3 :: h4 :: r2 =>
                      match hex_val h1, hex_val h2, hex_val h3, hex_val h4 with
                      | Some a, Some b, Some c', Some d =>
                          lex_string r2 ((a * 4096 + b * 256 + c' * 16 + d)%N :: acc)
                      | _, _, _, _ => None
                      end
                  | _ => None
                  end
                else None
            end
        end
      else if N.ltb c 32 then None
      else lex_string r (c :: acc)
  end.

(** The longest run of digits at the head of [s], and what follows. *)
Fixpoint span_digits (s : jsstring) : jsstring * jsstring :=
  match s with
  | [] => ([], [])
  | c :: r =>
      if is_digit c then let (ds, rest) := span_digits r in (c :: ds, rest)
      else ([], s)
  end.

(** A number literal: an optional minus sign; an integer part that is 0
    or starts with a digit from 1 to 9; an optional fraction, a dot and at
    least one digit; an optional exponent, e or E, an optional sign and at
    least one digit. Returns its text and what follows. *)
Definition lex_number (s : jsstring) : option (jsstring * jsstring) :=
  let (sign, s1) :=
    match s with
    | c :: r => if N.eqb c 45 then ([c], r) else ([], s)
    | [] => ([], s)
    end in
  let int_part :=
    match s1 with
    | d :: r =>
        if N.eqb d 48 then Some ([d], r)
        else if is_digit d then let (ds, rest) := span_digits r in Some (d :: ds, rest)
        else None
    | [] => None
    end in
  match int_part with
  | None => None
  | Some (ip, s2) =>
      let frac :=
        match s2 with
        | c :: r =>
            if N.eqb c 46 then
              match span_digits r with
              | ([], _) => None
              | (ds, rest) => Some (c :: ds, rest)
              end
            else Some ([], s2)
        | [] => Some ([], s2)
        end in
      match frac with
      | None => None
      | Some (fp, s3) =>
          let expo :=
            match s3 with
            | c :: r =>
                if N.eqb c 101 || N.eqb c 69 then
                  let (sg, r1) :=
                    match r with
                    | x :: r' => if N.eqb x 43 || N.eqb x 45 then ([x], r') else ([], r)
                    | [] => ([], r)
                    end in
                  match span_digits r1 with
                  | ([], _) => None
                  | (ds, rest) => Some (c :: sg ++ ds, rest)
                  end
                else Some ([], s3)
            | [] => Some ([], s3)
            end in
          match expo with
          | None => None
          | Some (ep, s4) => Some (sign ++ ip ++ fp ++ ep, s4)
          end
      end
  end.

(** The outcome of parsing a prefix of the text. *)
Inductive Parsed (A : Type) : Type :=
| POk (a : A) (rest : jsstring)
| PSyntax                           (* not JSON *)
| PLimit.                           (* the engine's limit was reached *)

Arguments POk {A} a rest.
Arguments PSyntax {A}.
Arguments PLimit {A}.

(** The elements of an array after its opening bracket, the first one
    known to be there: values separated by commas, then the closing
    bracket. *)
Fixpoint parse_elements (value : jsstring -> Parsed Json) (fuel : nat)
    (s : jsstring) (acc : list Json) : Parsed (list Json) :=
  match fuel with
  | O => PLimit
  | S fuel' =>
      match value s with
      | POk v r =>
          match skip_ws r with
          | c :: r' =>
              if N.eqb c 44 then parse_elements value fuel' r' (acc ++ [v])
              else if N.eqb c 93 then POk (acc ++ [v]) r'
              else PSyntax
          | [] => PSyntax
          end
      | PSyntax => PSyntax
      | PLimit => PLimit
      end
  end.

(** The members of an object after its opening brace, the first one known
    to be there: [string : value] pairs separated by commas, then the
    closing brace. *)
Fixpoint parse_members (value : jsstring -> Parsed Json) (fuel : nat)
    (s : jsstring) (acc : list (jsstring * Json)) : Parsed (list (jsstring * Json)) :=
  match fuel with
  | O => PLimit
  | S fuel' =>
      match skip_ws s with
      | q :: r0 =>
          if N.eqb q 34 then
            match lex_string r0 [] with
            | Some (k, r1) =>
                match skip_ws r1 with
                | c :: r2 =>
                    if N.eqb c 58 then
                      match value r2 with
                      | POk v r3 =>
                          match skip_ws r3 with
                          | d :: r4 =>
                              if N.eqb d 44 then
                                parse_members value fuel' r4 (set_prop acc k v)
                              else if N.eqb d 125 then POk (set_prop acc k v) r4
                              else PSyntax
                          | [] => PSyntax
                          end
                      | PSyntax => PSyntax
                      | PLimit => PLimit
                      end
                    else PSyntax
                | [] => PSyntax
                end
            | None => PSyntax
            end
          else PSyntax
      | [] => PSyntax
      end
  end.

(** One JSON value, with the white space before it. [fuel] bounds the work
    of the parser (the depth of nesting and the number of members of a
    container); exhausting it stands for the resource limit of the
    engine. *)
Fixpoint parse_value (fuel : nat) (s : jsstring) : Parsed Json :=
  match fuel with
  | O => PLimit
  | S fuel' =>
      match skip_ws s with
      | [] => PSyntax
      | c :: r =>
          if N.eqb c 123 then
            match skip_ws r with
            | d :: r' =>
                if N.eqb d 125 then POk (JObj []) r'
                else
                  match parse_members (parse_value fuel') fuel' r [] with
                  | POk ps rest => POk (JObj ps) rest
                  | PSyntax => PSyntax
                  | PLimit => PLimit
                  end
            | [] => PSyntax
            end
          else if N.eqb c 91 then
            match skip_ws r with
            | d :: r' =>
                if N.eqb d 93 then POk (JArr []) r'
                else
                  match parse_elements (parse_value fuel') fuel' r [] with
                  | POk vs rest => POk (JArr vs) rest
                  | PSyntax => PSyntax
                  | PLimit => PLimit
                  end
            | [] => PSyntax
            end
          else if N.eqb c 34 then
            match lex_string r [] with
            | Some (str, rest) => POk (JStr str) rest
            | None => PSyntax
            end
          else if startsWith (c :: r) (lit "true") then POk (JBool true) (skipn 4 (c :: r))
          else if startsWith (c :: r) (lit "false") then POk (JBool false) (skipn 5 (c :: r))
          else if startsWith (c :: r) (lit "null") then POk JNull (skipn 4 (c :: r))
          else
            match lex_number (c :: r) with
            | Some (lx, rest) => POk (JNum lx) rest
            | None => PSyntax
            end
      end
  end.

(** [JSON.parse(text)]: one value, then only white space. *)
Definition JSON_parse (text : jsstring) : Completion Json :=
  match parse_value (S (List.length text)) text with
  | POk v rest =>
      match skip_ws rest with
      | [] => Normal v
      | _ :: _ => Throw (SyntaxError (lit "Unexpected non-whitespace character after JSON"))
      end
  | PSyntax => Throw (SyntaxError (lit "Unexpected token in JSON"))
  | PLimit => Throw (RangeError (lit "Maximum call stack size exceeded"))
  end.

(** *** The regular expression of the decoder *)

(** [[\s\S]*\}] at the head of [s], greedy: the longest prefix of [s] that
    ends with a closing brace. *)
Fixpoint greedy_to_close (s : jsstring) : option jsstring :=
  match s with
  | [] => None
  | c :: r =>
      match greedy_to_close r with
      | Some m => Some (c :: m)
      | None => if N.eqb c RBRACE then Some [c] else None
      end
  end.

(** [s.match(/\{[\s\S]*\}/)]: the match at the leftmost position where
    the pattern matches, [match[0]]; [None] is [null]. *)
Fixpoint match_braces (s : jsstring) : option jsstring :=
  match s with
  | [] => None
  | c :: r =>
      if N.eqb c LBRACE then
        match greedy_to_close r with
        | Some m => Some (c :: m)
        | None => match_braces r
        end
      else match_braces r
  end.

End JS.

Import JS.

(** ** The monad of asynchronous functions

    [M W A] is a computation over a world [W] that completes with a value
    or throws; the world changes made before a throw are kept, as in
    JavaScript. *)

Definition M (W A : Type) : Type := W -> Completion A * W.

Definition ret {W A} (a : A) : M W A := fun w => (Normal a, w).

Definition throw {W A} (e : JsError) : M W A := fun w => (Throw e, w).

Definition bind {W A B} (c : M W A) (k : A -> M W B) : M W B :=
  fun w =>
    match c w with
    | (Normal a, w') => k a w'
    | (Throw e, w') => (Throw e, w')
    end.

(** [await] of an operation of an engine that does not touch the world. *)
Definition await {W A} (c : Completion A) : M W A := fun w => (c, w).

Declare Scope js_scope.
Delimit Scope js_scope with js.
Notation "x <- c ;; k" := (bind c (fun x => k))
  (at level 61, c at next level, right associativity) : js_scope.
Notation "c ;; k" := (bind c (fun _ => k))
  (at level 61, right associativity) : js_scope.
Local Open Scope js_scope.

(** ** Submitted files *)

(** A [File] of the browser, as the pipeline reads it: the declared media
    type (possibly absent) and the two reading methods. *)
Record File := mkFile {
  name : jsstring;
  size : Z;
  type : option jsstring;                 (* [undefined] is [None] *)
  arrayBuffer : Completion (list N);      (* [file.arrayBuffer()] *)
  text : Completion jsstring              (* [file.text()] *)
}.

(** ** The network and the component state *)

Module Net.

(** The arguments of a [fetch] call. [body] is the value handed to
    [JSON.stringify]. *)
Record Request := mkRequest {
  url : jsstring;
  method : jsstring;
  headers : list (jsstring * jsstring);
  body : Json
}.

(** The part of a [Response] the client reads; [json] is the completion of
    [res.json()]. *)
Record Response := mkResponse {
  ok : bool;
  status : Z;
  json : Completion Json
}.

End Net.

(** The [useState] cells of [App] that [handleSummarise] reads or writes. *)
Module State.

Record t := mk {
  file : option File;        (* [null] is [None] *)
  length : jsstring;
  loading : bool;
  error : jsstring;
  result : option Json;      (* [null] is [None] *)
  rawText : jsstring
}.

End State.

(** The world of a run: the requests handed to [fetch] so far, earliest
    first, and the component state. *)
Record World := mkWorld {
  sent : list Net.Request;
  ui : State.t
}.

(** ** src/src/lib/extractPdfText.js *)

Module Pdf.

(** The part of pdfjs-dist the module uses. *)
Record TextItem := mkItem { str : jsstring }.
Record TextContent := mkContent { items : list TextItem }.
Record PDFPageProxy := mkPage { getTextContent : Completion TextContent }.
Record PDFDocumentProxy := mkDoc {
  numPages : Z;
  getPage : Z -> Completion PDFPageProxy
}.

Section Extract.

(** [getDocument({ data: buf }).promise] *)
Variable getDocument : list N -> Completion PDFDocumentProxy.

(** The body of the [for] loop, for page number [p]. *)
Definition page_text (pdf : PDFDocumentProxy) (p : Z) : M World jsstring :=
  page <- await (getPage pdf p) ;;
  content <- await (getTextContent page) ;;
  ret (join (lit " ") (map str (items content))).

(** [for (let p = ...; p <= pdf.numPages; p++) { ...; chunks.push(text) }],
    entered with the current [p] and [chunks]. [fuel] bounds the number of
    iterations; [pages_loop_fuel] below shows that the fuel given by
    [loop_fuel] is never exhausted before the test [p <= pdf.numPages]
    fails, so the bound does not change the result. *)
Fixpoint pages_loop (fuel : nat) (pdf : PDFDocumentProxy) (p : Z)
    (chunks : list jsstring) : M World (list jsstring) :=
  match fuel with
  | O => ret chunks
  | S fuel' =>
      if (p <=? numPages pdf)%Z then
        t <- page_text pdf p ;;
        pages_loop fuel' pdf (p + 1) (chunks ++ [t])
      else ret chunks
  end.

(** The iterations left when the loop is at [p]. *)
Definition loop_fuel (pdf : PDFDocumentProxy) (p : Z) : nat :=
  Z.to_nat (numPages pdf + 1 - p).

Definition extractPdfText (file : File) : M World jsstring :=
  buf <- await (arrayBuffer file) ;;
  pdf <- await (getDocument buf) ;;
  chunks <- pages_loop (loop_fuel pdf 1) pdf 1 [] ;;
  ret (join [LF; LF] chunks).

End Extract.

End Pdf.

(** ** src/src/lib/ocrImage.js *)

Module Ocr.

(** The part of the result of [Tesseract.recognize] the module reads. *)
Record Page := mkPage { text : option jsstring }.
Record RecognizeResult := mkResult { data : Page }.

Section Recognise.

(** [Tesseract.recognize(file, lang)] *)
Variable recognize : File -> jsstring -> Completion RecognizeResult.

Definition ocrImage (file : File) : M World jsstring :=
  r <- await (recognize file (lit "eng")) ;;
  ret (if truthy (text (data r))
       then match text (data r) with Some t => t | None => [] end
       else []).

End Recognise.

End Ocr.

(** ** src/src/lib/gemini.js *)

Module Gemini.

Definition MODEL : jsstring := lit "gemini-2.0-flash".
Definition BASE : jsstring := lit "https://generativelanguage.googleapis.com/v1beta".

(** *** The table of length directives *)

(** What reading a property of the table can give. The table is an object
    literal, so besides its own three strings it hands out the members it
    inherits from [Object.prototype]. *)
Inductive Value : Type :=
| VUndefined
| VString (s : jsstring)
| VFunction (fname : jsstring)     (* a built-in function object *)
| VObjectPrototype.                (* the object [Object.prototype] *)

(** The properties of [Object.prototype]. *)
Definition object_prototype : list (jsstring * Value) :=
  [ (lit "constructor", VFunction (lit "Object"));
    (lit "__defineGetter__", VFunction (lit "__defineGetter__"));
    (lit "__defineSetter__", VFunction (lit "__defineSetter__"));
    (lit "hasOwnProperty", VFunction (lit "hasOwnProperty"));
    (lit "__lookupGetter__", VFunction (lit "__lookupGetter__"));
    (lit "__lookupSetter__", VFunction (lit "__lookupSetter__"));
    (lit "isPrototypeOf", VFunction (lit "isPrototypeOf"));
    (lit "propertyIsEnumerable", VFunction (lit "propertyIsEnumerable"));
    (lit "toString", VFunction (lit "toString"));
    (lit "valueOf", VFunction (lit "valueOf"));
    (lit "__proto__", VObjectPrototype);
    (lit "toLocaleString", VFunction (lit "toLocaleString")) ].

Fixpoint assoc {A} (l : list (jsstring * A)) (k : jsstring) : option A :=
  match l with
  | [] => None
  | (k', v) :: rest => if str_eqb k' k then Some v else assoc rest k
  end.

(** [literal[k]] for an object literal with the string-valued own
    properties [own]: the own property, else the inherited one, else
    [undefined]. *)
Definition literal_get (own : list (jsstring * jsstring)) (k : jsstring) : Value :=
  match assoc own k with
  | Some s => VString s
  | None =>
      match assoc object_prototype k with
      | Some v => v
      | None => VUndefined
      end
  end.

Definition to_boolean (v : Value) : bool :=
  match v with
  | VUndefined => false
  | VString [] => false
  | VString (_ :: _) => true
  | VFunction _ => true
  | VObjectPrototype => true
  end.

(** [a || b] *)
Definition or_else (a b : Value) : Value := if to_boolean a then a else b.

(** ToString, as a template literal applies it. The text of a built-in
    function is the one V8 prints. *)
Definition to_string (v : Value) : jsstring :=
  match v with
  | VUndefined => lit "undefined"
  | VString s => s
  | VFunction f => lit "function " ++ f ++ lit "() { [native code] }"
  | VObjectPrototype => lit "[object Object]"
  end.

(** U+2248 ALMOST EQUAL TO *)
Definition APPROX : char16 := 8776%N.

Definition short_words : jsstring := APPROX :: lit "80-120 words".
Definition medium_words : jsstring := APPROX :: lit "150-250 words".
Definition long_words : jsstring := APPROX :: lit "300-450 words".

Definition directives : list (jsstring * jsstring) :=
  [ (lit "short", short_words);
    (lit "medium", medium_words);
    (lit "long", long_words) ].

(** The default of the destructured parameter: [length = "medium"]. *)
Definition length_param (length : option jsstring) : jsstring :=
  match length with
  | None => lit "medium"
  | Some l => l
  end.

(** [const target = {...}[length] || medium_words] *)
Definition target (length : option jsstring) : Value :=
  or_else (literal_get directives (length_param length)) (VString medium_words).

(** *** The prompt *)

(** The template up to the interpolated directive. *)
Definition prompt_intro : jsstring :=
  [LF] ++ lit "You are a document summariser. Respond ONLY as strict JSON:" ++
  [LF] ++ lit "{" ++ quoted "summary" ++ lit ":" ++ quoted "..." ++ lit ", " ++
          quoted "key_points" ++ lit ":[" ++ quoted "..." ++ lit "," ++
          quoted "..." ++ lit "," ++ quoted "..." ++ lit "]}" ++
  [LF; LF] ++ lit "Rules:" ++
  [LF] ++ lit "- length: ".

(** The template between the directive and the interpolated text. *)
Definition prompt_rules : jsstring :=
  [LF] ++ lit "- concise & neutral" ++
  [LF] ++ lit "- keep names, numbers, definitions" ++
  [LF] ++ lit "- if input empty/garbled: {" ++ quoted "summary" ++ lit ":" ++
          quoted "No readable content." ++ lit ", " ++ quoted "key_points" ++
          lit ":[]}" ++
  [LF; LF] ++ lit "TEXT:" ++
  [LF; DQUOTE; DQUOTE; DQUOTE].

(** The template before the interpolated text. *)
Definition prompt_head (tgt : Value) : jsstring :=
  prompt_intro ++ to_string tgt ++ prompt_rules.

(** The template after the interpolated text. *)
Definition prompt_tail : jsstring := [DQUOTE; DQUOTE; DQUOTE; LF].

Definition prompt (tgt : Value) (text : jsstring) : jsstring :=
  prompt_head tgt ++ slice text 0 180000 ++ prompt_tail.

(** *** Decoding the reply *)

(** [v?.k] for the keys of the envelope ([candidates], [content], [parts],
    [text]), none of which is inherited by an object, an array or a string:
    [None] is [undefined]. *)
Definition opt_get (v : option Json) (k : jsstring) : option Json :=
  match v with
  | Some (JObj props) => get_prop props k
  | _ => None
  end.

(** [v?.[0]] *)
Definition opt_first (v : option Json) : option Json :=
  match v with
  | Some (JArr (x :: _)) => Some x
  | Some (JStr (c :: _)) => Some (JStr [c])
  | Some (JObj props) => get_prop props (lit "0")
  | _ => None
  end.

(** [v ?? d] *)
Definition nullish (v : option Json) (d : Json) : Json :=
  match v with
  | None => d
  | Some JNull => d
  | Some x => x
  end.

(** [json?.candidates?.[0]?.content?.parts?.[0]?.text] *)
Definition payload (json : Json) : option Json :=
  opt_get
    (opt_first
       (opt_get
          (opt_get (opt_first (opt_get (Some json) (lit "candidates")))
                   (lit "content"))
          (lit "parts")))
    (lit "text").

(** [const raw = ... ?? "{}"] *)
Definition raw_of (json : Json) : Json := nullish (payload json) (JStr (lit "{}")).

(** [{ summary: raw, key_points: [] }] *)
Definition fallback (raw : jsstring) : Json :=
  JObj [ (lit "summary", JStr raw); (lit "key_points", JArr []) ].

(** Lines 45 to 50, for a reply that is a string:
    [const match = raw.match(...); try { return match ? JSON.parse(match[0])
    : fallback } catch { return fallback }]. *)
Definition decode (raw : jsstring) : Completion Json :=
  let m := match_braces raw in
  try_catch
    match m with
    | Some m0 => JSON_parse m0
    | None => Normal (fallback raw)
    end
    (fun _ => Normal (fallback raw)).

(** The same lines for any value of [raw]: only a string has a [match]
    method, and the call is outside the [try]. *)
Definition decode_value (raw : Json) : Completion Json :=
  match raw with
  | JStr s => decode s
  | _ => Throw (TypeError (lit "raw.match is not a function"))
  end.

(** *** The client *)

(** The decimal text of an integer, as a template literal prints it. *)
Definition number_text (z : Z) : jsstring :=
  lit (DecimalString.NilZero.string_of_int (Z.to_int z)).

Section Client.

(** [import.meta.env.VITE_GEMINI_API_KEY]; [None] is [undefined]. *)
Variable KEY : option jsstring.

(** The remote service: the completion of the promise of [fetch]. *)
Variable remote : Net.Request -> Completion Net.Response.

(** [fetch(url, init)]: the request leaves, the service answers. *)
Definition fetch (req : Net.Request) : M World Net.Response :=
  fun w => (remote req, mkWorld (sent w ++ [req]) (ui w)).

Definition mustKey : M World unit :=
  if negb (truthy KEY)
  then throw (Error (lit "Missing VITE_GEMINI_API_KEY in .env.local"))
  else ret tt.

(** The request of lines 32 to 39. *)
Definition request (p : jsstring) : Net.Request :=
  Net.mkRequest
    (BASE ++ lit "/models/" ++ MODEL ++ lit ":generateContent?key=" ++
       match KEY with Some k => k | None => lit "undefined" end)
    (lit "POST")
    [ (lit "Content-Type", lit "application/json") ]
    (JObj
       [ (lit "contents",
          JArr [ JObj [ (lit "parts", JArr [ JObj [ (lit "text", JStr p) ] ]) ] ]);
         (lit "generationConfig", JObj [ (lit "temperature", JNum (lit "0.3")) ]) ]).

Definition summariseWithGemini (text : jsstring) (length : option jsstring)
  : M World Json :=
  mustKey ;;
  let tgt := target length in
  let p := prompt tgt text in
  res <- fetch (request p) ;;
  if negb (Net.ok res)
  then throw (Error (lit "Gemini error " ++ number_text (Net.status res)))
  else
    json <- await (Net.json res) ;;
    let raw := raw_of json in
    await (decode_value raw).

End Client.

End Gemini.

(** ** src/src/App.jsx *)

Module App.

(** [try { c } catch (e) { h e }] *)
Definition catching {A} (c : M World A) (h : JsError -> M World A) : M World A :=
  fun w =>
    match c w with
    | (Normal a, w') => (Normal a, w')
    | (Throw e, w') => h e w'
    end.

(** [try { c } finally { f }] *)
Definition finally {A} (c : M World A) (f : M World unit) : M World A :=
  fun w =>
    match c w with
    | (r, w') =>
        match f w' with
        | (Normal _, w'') => (r, w'')
        | (Throw e, w'') => (Throw e, w'')
        end
    end.

(** The setters of the [useState] cells. *)
Definition update (f : State.t -> State.t) : M World unit :=
  fun w => (Normal tt, mkWorld (sent w) (f (ui w))).

Definition setLoading (b : bool) : M World unit :=
  update (fun s => State.mk (State.file s) (State.length s) b (State.error s)
                            (State.result s) (State.rawText s)).

Definition setError (e : jsstring) : M World unit :=
  update (fun s => State.mk (State.file s) (State.length s) (State.loading s) e
                            (State.result s) (State.rawText s)).

Definition setResult (r : option Json) : M World unit :=
  update (fun s => State.mk (State.file s) (State.length s) (State.loading s)
                            (State.error s) r (State.rawText s)).

Definition setRawText (t : jsstring) : M World unit :=
  update (fun s => State.mk (State.file s) (State.length s) (State.loading s)
                            (State.error s) (State.result s) t).

(** [v === s] for a string literal [s] *)
Definition strict_eq (v : option jsstring) (s : jsstring) : bool :=
  match v with
  | Some t => str_eqb t s
  | None => false
  end.

(** [v?.startsWith(p)], as the condition of an [if]: [undefined] when [v]
    is absent, which is falsy. *)
Definition opt_startsWith (v : option jsstring) (p : jsstring) : bool :=
  match v with
  | Some t => startsWith t p
  | None => false
  end.

Definition PDF_TYPE : jsstring := lit "application/pdf".
Definition IMAGE_PREFIX : jsstring := lit "image/".

Definition NO_TEXT : jsstring :=
  lit "Could not extract any text from the document. It might be empty or unreadable.".

Definition WENT_WRONG : jsstring := lit "Something went wrong.".

Section Pipeline.

Variable KEY : option jsstring.
Variable remote : Net.Request -> Completion Net.Response.
Variable getDocument : list N -> Completion Pdf.PDFDocumentProxy.
Variable recognize : File -> jsstring -> Completion Ocr.RecognizeResult.

Definition extractTextFromFile (fileToProcess : File) : M World jsstring :=
  if strict_eq (type fileToProcess) PDF_TYPE then
    Pdf.extractPdfText getDocument fileToProcess
  else if opt_startsWith (type fileToProcess) IMAGE_PREFIX then
    Ocr.ocrImage recognize fileToProcess
  else
    await (text fileToProcess).

(** The [try] block of [handleSummarise], for the selected [file] and
    [length]. The early [return] is the first branch of the conditional. *)
Definition summarise_file (file : File) (length : jsstring) : M World unit :=
  setLoading true ;;
  setError [] ;;
  setResult None ;;
  text <- extractTextFromFile file ;;
  setRawText text ;;
  if negb (truthy (Some (trim text))) then
    setError NO_TEXT
  else
    out <- Gemini.summariseWithGemini KEY remote text (Some length) ;;
    setResult (Some out).

(** [catch (e) { console.error(e); setError(e.message || "Something went
    wrong."); }] *)
Definition on_error (e : JsError) : M World unit :=
  setError (if truthy (Some (message e)) then message e else WENT_WRONG).

Definition handleSummarise : M World unit :=
  fun w =>
    match State.file (ui w) with
    | None => ret tt w
    | Some file =>
        finally
          (catching (summarise_file file (State.length (ui w))) on_error)
          (setLoading false)
          w
    end.

End Pipeline.

(** The world in which the summarisation client is called: the spinner is
    on, the previous error and result are cleared, the extracted text is
    stored. *)
Definition calling (w : World) (txt : jsstring) : World :=
  mkWorld (sent w)
          (State.mk (State.file (ui w)) (State.length (ui w)) true [] None txt).

(** What the [catch] and [finally] blocks of [handleSummarise] make of the
    completion of the client. *)
Definition delivered (r : Completion Json * World) : Completion unit * World :=
  match r with
  | (Normal out, w2) =>
      (Normal tt,
       mkWorld (sent w2)
               (State.mk (State.file (ui w2)) (State.length (ui w2)) false
                         (State.error (ui w2)) (Some out) (State.rawText (ui w2))))
  | (Throw e, w2) =>
      (Normal tt,
       mkWorld (sent w2)
               (State.mk (State.file (ui w2)) (State.length (ui w2)) false
                         (if truthy (Some (message e)) then message e
                          else WENT_WRONG)
                         (State.result (ui w2)) (State.rawText (ui w2))))
  end.

End App.

(** ** Reference definitions of the specification *)

Module Reference.

(** The page numbers [p], [p + 1], ... of [n] consecutive pages. *)
Fixpoint page_numbers (p : Z) (n : nat) : list Z :=
  match n with
  | O => []
  | S n' => p :: page_numbers (p + 1) n'
  end.

(** The text of a structured document of [n] pages whose page [p] holds the
    fragments [fragments p]: for each page from 1 to [n] in ascending
    order, the fragments joined with one space; the page strings joined
    with a blank line. *)
Definition extraction (n : nat) (fragments : Z -> list jsstring) : jsstring :=
  join [LF; LF]
       (map (fun p => join (lit " ") (fragments p)) (page_numbers 1 n)).

(** [pdf] has [n] pages, and each of them can be read and holds the
    fragments [fragments p]. *)
Definition reads_as (pdf : Pdf.PDFDocumentProxy) (n : nat)
    (fragments : Z -> list jsstring) : Prop :=
  Pdf.numPages pdf = Z.of_nat n /\
  forall p, (1 <= p <= Z.of_nat n)%Z ->
    exists page content,
      Pdf.getPage pdf p = Normal page /\
      Pdf.getTextContent page = Normal content /\
      map Pdf.str (Pdf.items content) = fragments p.

Definition is_string (v : Json) : bool :=
  match v with
  | JStr _ => true
  | _ => false
  end.

(** A SummaryResult: an object whose [summary] is a string and whose
    [key_points] is an array of strings. *)
Definition well_formed (v : Json) : bool :=
  match v with
  | JObj props =>
      match get_prop props (lit "summary"), get_prop props (lit "key_points") with
      | Some (JStr _), Some (JArr ks) => forallb is_string ks
      | _, _ => false
      end
  | _ => false
  end.

(** No code unit of [s] is [c]. *)
Definition free_of (c : char16) (s : jsstring) : Prop :=
  forallb (fun x => negb (N.eqb x c)) s = true.

End Reference.

(** ** Sample inputs *)

Module Sample.

Definition world0 : World :=
  mkWorld [] (State.mk None (lit "medium") false [] None []).

(** A document of two pages: "Hello" "world" on the first, "Bye" on the
    second. *)
Definition fragments (p : Z) : list jsstring :=
  if (p =? 1)%Z then [lit "Hello"; lit "world"]
  else if (p =? 2)%Z then [lit "Bye"]
  else [].

Definition two_pages : Pdf.PDFDocumentProxy :=
  Pdf.mkDoc 2
    (fun p => Normal (Pdf.mkPage (Normal (Pdf.mkContent (map Pdf.mkItem (fragments p)))))).

Definition no_pages : Pdf.PDFDocumentProxy :=
  Pdf.mkDoc 0 (fun p => Throw (Error (lit "Invalid page request."))).

Definition parser (doc : Pdf.PDFDocumentProxy) (buf : list N)
  : Completion Pdf.PDFDocumentProxy := Normal doc.

Definition no_ocr (f : File) (lang : jsstring) : Completion Ocr.RecognizeResult :=
  Normal (Ocr.mkResult (Ocr.mkPage None)).

Definition offline (r : Net.Request) : Completion Net.Response :=
  Throw (TypeError (lit "Failed to fetch")).

Definition pdf_file : File :=
  mkFile (lit "a.pdf") 3 (Some App.PDF_TYPE) (Normal [37; 80; 68]%N)
         (Normal (lit "%PD")).

Definition text_file (t : jsstring) : File :=
  mkFile (lit "a.txt") (Z.of_nat (List.length t)) (Some (lit "text/plain"))
         (Normal []) (Normal t).

Definition selected (f : File) : World :=
  mkWorld [] (State.mk (Some f) (lit "medium") false [] None []).


(** The reply [{"summary":"A","key_points":["x","y"]}] and the object it
    denotes. *)
Definition reply_body : jsstring :=
  quoted "summary" ++ lit ":" ++ quoted "A" ++ lit "," ++
  quoted "key_points" ++ lit ":[" ++ quoted "x" ++ lit "," ++ quoted "y" ++ lit "]".

Definition reply : jsstring := LBRACE :: reply_body ++ [RBRACE].

Definition reply_object : Json :=
  JObj [ (lit "summary", JStr (lit "A"));
         (lit "key_points", JArr [JStr (lit "x"); JStr (lit "y")]) ].

(** Prose around the reply: without braces, and with a pair of them. *)
Definition plain_prose : jsstring := lit "Sure! Here is the JSON: ".
Definition braced_prose : jsstring := lit "Summary {draft}: ".

(** [not json at all] and [{"summary": invalid}] *)
Definition no_json : jsstring := lit "not json at all".
Definition bad_json : jsstring := lit "{" ++ quoted "summary" ++ lit ": invalid}".

(** [{"summary":42}]: JSON, but not a SummaryResult. *)
Definition odd_json : jsstring := lit "{" ++ quoted "summary" ++ lit ":42}".

(** The envelope of the provider around the text [t] of the model. *)
Definition envelope (t : Json) : Json :=
  JObj [ (lit "candidates",
          JArr [ JObj [ (lit "content",
                         JObj [ (lit "parts", JArr [ JObj [ (lit "text", t) ] ]) ]) ] ]) ].

(** An envelope without candidates. *)
Definition empty_envelope : Json := JObj [ (lit "candidates", JArr []) ].

(** A service that answers every request with status 200 and the body
    [json]. *)
Definition answering (json : Json) (r : Net.Request) : Completion Net.Response :=
  Normal (Net.mkResponse true 200 (Normal json)).

End Sample.

(** ** More sample inputs *)

Module Case.

(** A document of three pages whose second page cannot be read. *)
Definition broken_doc : Pdf.PDFDocumentProxy :=
  Pdf.mkDoc 3
    (fun p =>
       if (p =? 2)%Z then Throw (Error (lit "Invalid page request."))
       else Normal (Pdf.mkPage
                      (Normal (Pdf.mkContent (map Pdf.mkItem (Sample.fragments p)))))).

(** A scanned document: three pages without text items. *)
Definition scanned_doc : Pdf.PDFDocumentProxy :=
  Pdf.mkDoc 3 (fun p => Normal (Pdf.mkPage (Normal (Pdf.mkContent [])))).

(** A document that cannot be opened. *)
Definition corrupt (buf : list N) : Completion Pdf.PDFDocumentProxy :=
  Throw (Error (lit "Invalid PDF structure.")).

Definition image_file : File :=
  mkFile (lit "a.png") 4 (Some (lit "image/png")) (Normal [137; 80; 78; 71]%N)
         (Normal (lit "?PNG")).

(** An OCR engine that reports the text [t]. *)
Definition ocr_reports (t : option jsstring) (f : File) (lang : jsstring)
  : Completion Ocr.RecognizeResult :=
  Normal (Ocr.mkResult (Ocr.mkPage t)).

(** A service that answers every request with the status [code], not a
    success. *)
Definition refusing (code : Z) (r : Net.Request) : Completion Net.Response :=
  Normal (Net.mkResponse false code (Throw (SyntaxError (lit "Unexpected end of JSON input")))).

End Case.


(** ** src/src/App.jsx: the hint, the preview and copying *)

Module View.

(** U+2014 EM DASH and U+2019 RIGHT SINGLE QUOTATION MARK *)
Definition EM_DASH : char16 := 8212%N.
Definition RSQUO : char16 := 8217%N.

Definition NO_FILE_HINT : jsstring :=
  lit "Drop any document to get started, or choose a file.".
Definition PDF_HINT : jsstring :=
  lit "PDF detected " ++ [EM_DASH] ++ lit " we" ++ [RSQUO] ++ lit "ll parse its text.".
Definition IMAGE_HINT : jsstring :=
  lit "Image detected " ++ [EM_DASH] ++ lit " we" ++ [RSQUO] ++ lit "ll run OCR.".
Definition TEXT_HINT : jsstring :=
  lit "Text/other file " ++ [EM_DASH] ++ lit " we" ++ [RSQUO] ++ lit "ll read its contents.".

(** The [useMemo] of lines 39 to 44. *)
Definition helper (file : option File) : jsstring :=
  match file with
  | None => NO_FILE_HINT
  | Some f =>
      if App.strict_eq (type f) App.PDF_TYPE then PDF_HINT
      else if App.opt_startsWith (type f) App.IMAGE_PREFIX then IMAGE_HINT
      else TEXT_HINT
  end.

(** The [useMemo] of lines 47 to 52; [createObjectURL] is
    [URL.createObjectURL], and [None] is [null]. *)
Definition filePreviewUrl (createObjectURL : File -> jsstring) (file : option File)
  : option jsstring :=
  match file with
  | None => None
  | Some f =>
      if App.strict_eq (type f) App.PDF_TYPE
         || App.opt_startsWith (type f) App.IMAGE_PREFIX
      then Some (createObjectURL f)
      else None
  end.

(** *** Copying the summary *)

(** The part of the page that [handleCopy] changes: the clipboard, the
    [copied] cell, the delays of the pending timers that clear it, and the
    alerts shown. Logging to the console is left out. *)
Record Desk := mkDesk {
  clipboard : option jsstring;
  copied : bool;
  timers : list Z;
  alerts : list jsstring
}.

Section Copy.

(** The text of the double a number literal denotes, [Number::toString],
    and whether that double is neither zero nor NaN. *)
Variable number_string : jsstring -> jsstring.
Variable number_truthy : jsstring -> bool.

(** [navigator.clipboard.writeText(t)]: whether the page may write. A
    missing [navigator.clipboard] is a thrown TypeError. *)
Variable writeText : jsstring -> Completion unit.

(** ToBoolean of a state cell that holds [null] or a value of JSON. *)
Definition to_boolean (v : option Json) : bool :=
  match v with
  | None => false
  | Some JNull => false
  | Some (JBool b) => b
  | Some (JNum lx) => number_truthy lx
  | Some (JStr []) => false
  | Some (JStr (_ :: _)) => true
  | Some (JArr _) => true
  | Some (JObj _) => true
  end.

(** ToString of a value of JSON. An array joins its elements with commas,
    null elements being empty; an object prints through
    [Object.prototype.toString], unless it has an own [toString] property,
    which JSON cannot make callable. *)
Fixpoint to_string (v : Json) : Completion jsstring :=
  match v with
  | JNull => Normal (lit "null")
  | JBool true => Normal (lit "true")
  | JBool false => Normal (lit "false")
  | JNum lx => Normal (number_string lx)
  | JStr s => Normal s
  | JArr elems =>
      match
        (fix items (l : list Json) : Completion (list jsstring) :=
           match l with
           | [] => Normal []
           | x :: rest =>
               match match x with JNull => Normal [] | _ => to_string x end with
               | Normal t =>
                   match items rest with
                   | Normal ts => Normal (t :: ts)
                   | Throw e => Throw e
                   end
               | Throw e => Throw e
               end
           end) elems
      with
      | Normal ts => Normal (join (lit ",") ts)
      | Throw e => Throw e
      end
  | JObj props =>
      match get_prop props (lit "toString") with
      | Some _ => Throw (TypeError (lit "Cannot convert object to primitive value"))
      | None => Normal (lit "[object Object]")
      end
  end.

(** [`${v}`] for a property that may be missing. *)
Definition interpolate (v : option Json) : Completion jsstring :=
  match v with
  | None => Normal (lit "undefined")
  | Some x => to_string x
  end.

(** [result.k], for the keys [summary] and [key_points], which no
    prototype defines. *)
Definition field (result : Json) (k : jsstring) : option Json :=
  match result with
  | JObj props => get_prop props k
  | _ => None
  end.

(** [ks.map(p => `- ${p}`)] on the elements of an array *)
Fixpoint bullets (ks : list Json) : Completion (list jsstring) :=
  match ks with
  | [] => Normal []
  | p :: rest =>
      match to_string p with
      | Normal t =>
          match bullets rest with
          | Normal ts => Normal ((lit "- " ++ t) :: ts)
          | Throw e => Throw e
          end
      | Throw e => Throw e
      end
  end.

(** [result.key_points.map(...).join('\n')]: only an array has [map]. *)
Definition key_point_lines (kp : option Json) : Completion jsstring :=
  match kp with
  | Some (JArr ks) =>
      match bullets ks with
      | Normal ts => Normal (join [LF] ts)
      | Throw e => Throw e
      end
  | None =>
      Throw (TypeError (lit "Cannot read properties of undefined (reading 'map')"))
  | Some JNull =>
      Throw (TypeError (lit "Cannot read properties of null (reading 'map')"))
  | Some _ => Throw (TypeError (lit "result.key_points.map is not a function"))
  end.

(** The template literal of line 122, its substitutions evaluated from
    left to right. *)
Definition textToCopy (result : Json) : Completion jsstring :=
  match interpolate (field result (lit "summary")) with
  | Normal s =>
      match key_point_lines (field result (lit "key_points")) with
      | Normal ls =>
          Normal (lit "## Summary" ++ [LF; LF] ++ s ++ [LF; LF] ++
                  lit "## Key Points" ++ [LF; LF] ++ ls)
      | Throw e => Throw e
      end
  | Throw e => Throw e
  end.

Definition handleCopy (result : option Json) : M Desk unit :=
  if negb (to_boolean result) then ret tt
  else
    match result with
    | None => ret tt
    | Some r =>
        t <- await (textToCopy r) ;;
        fun d =>
          match writeText t with
          | Normal _ =>
              (Normal tt,
               mkDesk (Some t) true (timers d ++ [2500%Z]) (alerts d))
          | Throw err =>
              (Normal tt,
               mkDesk (clipboard d) (copied d) (timers d)
                      (alerts d ++ [lit "Failed to copy text."]))
          end
    end.

End Copy.

End View.


(** ** src/src/lib/gemini.js: the body of the request as text *)

Module Wire.

(** A lower-case hexadecimal digit. *)
Definition hex_digit (n : N) : char16 :=
  if (n <? 10)%N then (48 + n)%N else (87 + n)%N.

(** The six code units of a u-escape of [c]. *)
Definition unicode_escape (c : char16) : jsstring :=
  [ 92%N; 117%N;
    hex_digit (c / 4096); hex_digit ((c / 256) mod 16);
    hex_digit ((c / 16) mod 16); hex_digit (c mod 16) ].

Definition is_high_surrogate (c : char16) : bool :=
  N.leb 55296 c && N.leb c 56319.

Definition is_low_surrogate (c : char16) : bool :=
  N.leb 56320 c && N.leb c 57343.

(** QuoteJSONString without the enclosing quotes: the seven short escapes,
    u-escapes for the other control characters and for surrogates that
    are not paired, everything else as it is. *)
Fixpoint quote_chars (s : jsstring) : jsstring :=
  match s with
  | [] => []
  | c :: r =>
      if N.eqb c 8 then 92%N :: 98%N :: quote_chars r
      else if N.eqb c 9 then 92%N :: 116%N :: quote_chars r
      else if N.eqb c 10 then 92%N :: 110%N :: quote_chars r
      else if N.eqb c 12 then 92%N :: 102%N :: quote_chars r
      else if N.eqb c 13 then 92%N :: 114%N :: quote_chars r
      else if N.eqb c 34 then 92%N :: 34%N :: quote_chars r
      else if N.eqb c 92 then 92%N :: 92%N :: quote_chars r
      else if N.ltb c 32 then unicode_escape c ++ quote_chars r
      else if is_high_surrogate c then
        match r with
        | d :: r' =>
            if is_low_surrogate d then c :: d :: quote_chars r'
            else unicode_escape c ++ quote_chars r
        | [] => unicode_escape c
        end
      else if is_low_surrogate c then unicode_escape c ++ quote_chars r
      else c :: quote_chars r
  end.

Definition QuoteJSONString (s : jsstring) : jsstring :=
  DQUOTE :: quote_chars s ++ [DQUOTE].

(** What [JSON.stringify] returns for the object literal of lines 35 to
    38, whose only varying part is the prompt [p]. *)
Definition body_text (p : jsstring) : jsstring :=
  lit "{" ++ quoted "contents" ++ lit ":[{" ++ quoted "parts" ++ lit ":[{" ++
  quoted "text" ++ lit ":" ++ QuoteJSONString p ++ lit "}]}]," ++
  quoted "generationConfig" ++ lit ":{" ++ quoted "temperature" ++ lit ":0.3}}".

(** Every code unit has sixteen bits. *)
Definition utf16 (s : jsstring) : Prop := Forall (fun c => (c < 65536)%N) s.

End Wire.


(** * Properties *)

(** ** Strings *)

Lemma str_eqb_eq (a b : jsstring) : str_eqb a b = true <-> a = b.
Proof.
  revert b; induction a as [|x a IH]; intros [|y b]; simpl; split;
    try discriminate; try reflexivity.
  - intros H. apply andb_true_iff in H as [Hx Hr].
    apply N.eqb_eq in Hx. apply IH in Hr. now subst.
  - intros H. injection H as -> ->. rewrite N.eqb_refl. simpl. now apply IH.
Qed.

Lemma trimStart_nil (s : jsstring) :
  trimStart s = [] <-> forallb is_white_space s = true.
Proof.
  induction s as [|c s IH]; simpl.
  - tauto.
  - destruct (is_white_space c); simpl; [exact IH|].
    split; discriminate.
Qed.

Lemma trimStart_head (s : jsstring) c r :
  trimStart s = c :: r -> is_white_space c = false.
Proof.
  induction s as [|x s IH]; simpl; [discriminate|].
  destruct (is_white_space x) eqn:E; [exact IH|].
  intros H. injection H as -> _. exact E.
Qed.

Lemma forallb_rev {A} (f : A -> bool) (l : list A) :
  forallb f (rev l) = forallb f l.
Proof.
  induction l as [|x l IH]; simpl; [reflexivity|].
  rewrite forallb_app, IH. simpl. rewrite andb_true_r. apply andb_comm.
Qed.

(** A string trims to the empty string exactly when all its code units
    are white space (the empty string included). *)
Lemma trim_nil (s : jsstring) :
  trim s = [] <-> forallb is_white_space s = true.
Proof.
  unfold trim, trimEnd. split.
  - intros H.
    apply (f_equal (@rev _)) in H. rewrite rev_involutive in H. simpl in H.
    apply trimStart_nil in H. rewrite forallb_rev in H.
    destruct (trimStart s) as [|c r] eqn:E.
    + now apply trimStart_nil.
    + apply trimStart_head in E. simpl in H. rewrite E in H. discriminate.
  - intros H. apply trimStart_nil in H. rewrite H. reflexivity.
Qed.

(** [slice(0, n)] keeps the first [n] code units. *)
Lemma slice_prefix (s : jsstring) (n : Z) :
  (0 <= n)%Z -> slice s 0 n = firstn (Z.to_nat n) s.
Proof.
  intros Hn. unfold slice.
  assert (Hlen : (0 <= Z.of_nat (List.length s))%Z) by lia.
  replace (0 <? 0)%Z with false by reflexivity.
  replace (n <? 0)%Z with false by (symmetry; apply Z.ltb_ge; lia).
  rewrite (Z.min_l 0) by lia. simpl skipn.
  rewrite Z.sub_0_r.
  rewrite Z.max_l by lia.
  destruct (Z.le_ge_cases n (Z.of_nat (List.length s))) as [Hle|Hge].
  - now rewrite Z.min_l by lia.
  - rewrite Z.min_r by lia. rewrite Nat2Z.id.
    rewrite firstn_all. symmetry. apply firstn_all2. lia.
Qed.

(** ** Structured-document extraction *)

Section PdfFacts.

Variable getDocument : list N -> Completion Pdf.PDFDocumentProxy.

(** The engines are functions of the file: an extraction neither reads nor
    changes the world. *)
Lemma page_text_pure pdf p :
  exists c, forall w : World, Pdf.page_text pdf p w = (c, w).
Proof.
  unfold Pdf.page_text, bind, await, ret.
  destruct (Pdf.getPage pdf p) as [page|e]; [|now eexists].
  destruct (Pdf.getTextContent page) as [content|e]; now eexists.
Qed.

Lemma pages_loop_pure fuel : forall pdf p chunks,
  exists c, forall w : World, Pdf.pages_loop fuel pdf p chunks w = (c, w).
Proof.
  induction fuel as [|fuel IH]; intros pdf p chunks; simpl.
  - now eexists.
  - destruct (p <=? Pdf.numPages pdf)%Z; [|now eexists].
    destruct (page_text_pure pdf p) as [[t|e] Hc].
    + destruct (IH pdf (p + 1)%Z (chunks ++ [t])) as [c' Hc'].
      exists c'. intros w. unfold bind. now rewrite Hc, Hc'.
    + exists (Throw e). intros w. unfold bind. now rewrite Hc.
Qed.

Lemma extractPdfText_pure file :
  exists c, forall w : World, Pdf.extractPdfText getDocument file w = (c, w).
Proof.
  unfold Pdf.extractPdfText, bind, await.
  destruct (arrayBuffer file) as [buf|e]; [|now eexists].
  destruct (getDocument buf) as [pdf|e]; [|now eexists].
  destruct (pages_loop_pure (Pdf.loop_fuel pdf 1) pdf 1 []) as [[chunks|e] Hc].
  - eexists. intros w. rewrite Hc. reflexivity.
  - eexists. intros w. rewrite Hc. reflexivity.
Qed.

(** The fuel of [loop_fuel] is enough: with any more of it the loop gives
    the same completion, so the bound is never what stops the loop. *)
Lemma pages_loop_fuel fuel : forall extra pdf p chunks (w : World),
  fuel = Pdf.loop_fuel pdf p ->
  Pdf.pages_loop (fuel + extra) pdf p chunks w = Pdf.pages_loop fuel pdf p chunks w.
Proof.
  unfold Pdf.loop_fuel.
  induction fuel as [|fuel IH]; intros extra pdf p chunks w Hf.
  - simpl. destruct extra as [|extra]; [reflexivity|]. simpl.
    replace (p <=? Pdf.numPages pdf)%Z with false; [reflexivity|].
    symmetry. apply Z.leb_gt. lia.
  - simpl.
    destruct (p <=? Pdf.numPages pdf)%Z; [|reflexivity].
    unfold bind. destruct (Pdf.page_text pdf p w) as [[t|e] w']; [|reflexivity].
    apply IH. lia.
Qed.

(** The loop over the readable pages [p], ..., [p + n - 1] pushes their
    page strings, in that order. *)
Lemma pages_loop_chunks n : forall pdf p chunks fragments (w : World),
  (p + Z.of_nat n = Pdf.numPages pdf + 1)%Z ->
  (forall q, (p <= q <= Pdf.numPages pdf)%Z ->
     exists page content,
       Pdf.getPage pdf q = Normal page /\
       Pdf.getTextContent page = Normal content /\
       map Pdf.str (Pdf.items content) = fragments q) ->
  Pdf.pages_loop n pdf p chunks w =
  (Normal (chunks ++ map (fun q => join (lit " ") (fragments q))
                         (Reference.page_numbers p n)), w).
Proof.
  induction n as [|n IH]; intros pdf p chunks fragments w Hn Hpages.
  - simpl. now rewrite app_nil_r.
  - simpl Pdf.pages_loop.
    replace (p <=? Pdf.numPages pdf)%Z with true by (symmetry; apply Z.leb_le; lia).
    destruct (Hpages p) as (page & content & Hp & Hc & Hf); [lia|].
    unfold bind at 1. unfold Pdf.page_text, bind, await, ret.
    rewrite Hp, Hc, Hf.
    rewrite (IH pdf (p + 1)%Z (chunks ++ [join (lit " ") (fragments p)]) fragments w).
    + simpl. now rewrite <- app_assoc.
    + lia.
    + intros q Hq. apply Hpages. lia.
Qed.

End PdfFacts.

(** C9. For a structured document of N readable pages, the extraction is
    the reference text: for each page from 1 to N in ascending order the
    fragments of the page joined with one space, the page strings joined
    with a blank line; and extracting the same file again, in whatever
    world, gives the same completion. *)
Theorem extractPdfText_reference
    (getDocument : list N -> Completion Pdf.PDFDocumentProxy)
    (file : File) (buf : list N) (pdf : Pdf.PDFDocumentProxy)
    (n : nat) (fragments : Z -> list jsstring) :
  arrayBuffer file = Normal buf ->
  getDocument buf = Normal pdf ->
  Reference.reads_as pdf n fragments ->
  (forall w, Pdf.extractPdfText getDocument file w
             = (Normal (Reference.extraction n fragments), w)) /\
  (forall w1 w2, fst (Pdf.extractPdfText getDocument file w1)
                 = fst (Pdf.extractPdfText getDocument file w2)).
Proof.
  intros Hbuf Hdoc [Hn Hpages]. split.
  - intros w. unfold Pdf.extractPdfText, bind, await. rewrite Hbuf, Hdoc.
    assert (Hfuel : Pdf.loop_fuel pdf 1 = n) by (unfold Pdf.loop_fuel; lia).
    rewrite Hfuel.
    rewrite (pages_loop_chunks n pdf 1 [] fragments w).
    + reflexivity.
    + lia.
    + intros q Hq. apply Hpages. lia.
  - intros w1 w2. destruct (extractPdfText_pure getDocument file) as [c Hc].
    now rewrite !Hc.
Qed.

Lemma extractPdfText_reference_witness :
  Pdf.extractPdfText (Sample.parser Sample.two_pages) Sample.pdf_file Sample.world0
  = (Normal (lit "Hello world" ++ [LF; LF] ++ lit "Bye"), Sample.world0).
Proof.
  refine (proj1 (extractPdfText_reference (Sample.parser Sample.two_pages)
                   Sample.pdf_file [37; 80; 68]%N Sample.two_pages 2
                   Sample.fragments eq_refl eq_refl _) Sample.world0).
  split; [reflexivity|].
  intros p Hp.
  exists (Pdf.mkPage (Normal (Pdf.mkContent (map Pdf.mkItem (Sample.fragments p))))).
  exists (Pdf.mkContent (map Pdf.mkItem (Sample.fragments p))).
  repeat split.
  unfold Sample.fragments.
  destruct (p =? 1)%Z; [reflexivity|].
  destruct (p =? 2)%Z; reflexivity.
Defined.

(** ** The dispatcher *)

Lemma startsWith_prefix (s p : jsstring) :
  startsWith s p = true <-> exists rest, s = p ++ rest.
Proof.
  revert s; induction p as [|y p IH]; intros s; simpl.
  - split; [intros _; now exists s|reflexivity].
  - destruct s as [|x s].
    + split; [discriminate|intros [rest H]; discriminate].
    + rewrite andb_true_iff, N.eqb_eq, IH. split.
      * intros [-> [rest ->]]. now exists rest.
      * intros [rest H]. injection H as -> ->. split; [reflexivity|now exists rest].
Qed.

Section Dispatch.

Variable getDocument : list N -> Completion Pdf.PDFDocumentProxy.
Variable recognize : File -> jsstring -> Completion Ocr.RecognizeResult.

Lemma ocrImage_pure file :
  exists c, forall w : World, Ocr.ocrImage recognize file w = (c, w).
Proof.
  unfold Ocr.ocrImage, bind, await, ret.
  destruct (recognize file (lit "eng")); now eexists.
Qed.

Lemma extractTextFromFile_pure file :
  exists c, forall w : World,
    App.extractTextFromFile getDocument recognize file w = (c, w).
Proof.
  unfold App.extractTextFromFile.
  destruct (App.strict_eq (type file) App.PDF_TYPE).
  - apply extractPdfText_pure.
  - destruct (App.opt_startsWith (type file) App.IMAGE_PREFIX).
    + apply ocrImage_pure.
    + now eexists.
Qed.

End Dispatch.

(** C1. Whatever the declared media type, absent and empty included, the
    dispatcher takes exactly one of three branches, tested in this order:
    the type is "application/pdf" and the text comes from the PDF
    extraction; else the type begins with "image/" and the text comes from
    OCR; else the file is read as plain text. *)
Theorem extractTextFromFile_dispatch
    (getDocument : list N -> Completion Pdf.PDFDocumentProxy)
    (recognize : File -> jsstring -> Completion Ocr.RecognizeResult)
    (f : File) :
  (type f = Some App.PDF_TYPE /\
   App.extractTextFromFile getDocument recognize f
   = Pdf.extractPdfText getDocument f)
  \/
  (type f <> Some App.PDF_TYPE /\
   (exists rest, type f = Some (App.IMAGE_PREFIX ++ rest)) /\
   App.extractTextFromFile getDocument recognize f
   = Ocr.ocrImage recognize f)
  \/
  (type f <> Some App.PDF_TYPE /\
   (forall rest, type f <> Some (App.IMAGE_PREFIX ++ rest)) /\
   App.extractTextFromFile getDocument recognize f
   = await (text f)).
Proof.
  unfold App.extractTextFromFile.
  destruct (type f) as [t|] eqn:Ht; cbn [App.strict_eq App.opt_startsWith].
  - destruct (str_eqb t App.PDF_TYPE) eqn:Epdf.
    + left. apply str_eqb_eq in Epdf. subst t. now split.
    + assert (Hne : Some t <> Some App.PDF_TYPE).
      { intros H. injection H as ->.
        assert (str_eqb App.PDF_TYPE App.PDF_TYPE = true) by now apply str_eqb_eq.
        congruence. }
      destruct (startsWith t App.IMAGE_PREFIX) eqn:Eimg.
      * right; left. apply startsWith_prefix in Eimg as [rest ->].
        split; [exact Hne|]. split; [now exists rest|reflexivity].
      * right; right. split; [exact Hne|]. split; [|reflexivity].
        intros rest H. injection H as Ht'.
        assert (Hs : startsWith t App.IMAGE_PREFIX = true)
          by (apply startsWith_prefix; now exists rest).
        rewrite Hs in Eimg. discriminate.
  - right; right. split; [discriminate|]. split; [discriminate|reflexivity].
Qed.

(** The two degenerate media types of the claim go to the plain-text
    branch. *)
Lemma extractTextFromFile_untyped getDocument recognize (f : File) :
  type f = None \/ type f = Some [] ->
  App.extractTextFromFile getDocument recognize f = await (text f).
Proof.
  intros [H|H]; unfold App.extractTextFromFile; now rewrite H.
Qed.

(** ** The pipeline *)

Section PipelineFacts.

Variable KEY : option jsstring.
Variable remote : Net.Request -> Completion Net.Response.
Variable getDocument : list N -> Completion Pdf.PDFDocumentProxy.
Variable recognize : File -> jsstring -> Completion Ocr.RecognizeResult.

(** One run of [handleSummarise] on a file whose extraction succeeds. *)
Lemma handleSummarise_run (w : World) (file : File) (txt : jsstring) :
  State.file (ui w) = Some file ->
  fst (App.extractTextFromFile getDocument recognize file w) = Normal txt ->
  App.handleSummarise KEY remote getDocument recognize w =
  match trim txt with
  | [] =>
      (Normal tt,
       mkWorld (sent w)
               (State.mk (Some file) (State.length (ui w)) false App.NO_TEXT None txt))
  | _ :: _ =>
      App.delivered (Gemini.summariseWithGemini KEY remote txt
                       (Some (State.length (ui w))) (App.calling w txt))
  end.
Proof.
  intros Hfile Hext.
  destruct (extractTextFromFile_pure getDocument recognize file) as [c Hc].
  rewrite Hc in Hext. simpl in Hext. subst c.
  unfold App.handleSummarise. rewrite Hfile.
  unfold App.finally, App.catching, App.summarise_file.
  unfold bind, App.setLoading, App.setError, App.setResult, App.setRawText,
    App.update.
  rewrite Hc. cbn [sent ui State.file State.length State.loading State.error
                   State.result State.rawText].
  unfold App.calling, App.delivered. rewrite Hfile.
  destruct (trim txt) as [|c0 r0]; cbn [truthy negb].
  - reflexivity.
  - destruct (Gemini.summariseWithGemini _ _ _ _ _) as [[out|e] w2]; reflexivity.
Qed.

End PipelineFacts.

(** C2. When the extracted text trims to the empty string (it is empty or
    all white space), the run ends with the "could not extract any text"
    message, no result, the spinner off, and the log of requests as it
    was: the client is not called. Otherwise the client is called with the
    text as extracted, untrimmed. *)
Theorem handleSummarise_short_circuit
    (KEY : option jsstring)
    (remote : Net.Request -> Completion Net.Response)
    (getDocument : list N -> Completion Pdf.PDFDocumentProxy)
    (recognize : File -> jsstring -> Completion Ocr.RecognizeResult)
    (w : World) (file : File) (txt : jsstring) :
  State.file (ui w) = Some file ->
  fst (App.extractTextFromFile getDocument recognize file w) = Normal txt ->
  (trim txt = [] ->
   App.handleSummarise KEY remote getDocument recognize w =
   (Normal tt,
    mkWorld (sent w)
            (State.mk (Some file) (State.length (ui w)) false App.NO_TEXT None txt)))
  /\
  (trim txt <> [] ->
   App.handleSummarise KEY remote getDocument recognize w =
   App.delivered (Gemini.summariseWithGemini KEY remote txt
                    (Some (State.length (ui w))) (App.calling w txt))).
Proof.
  intros Hfile Hext.
  pose proof (handleSummarise_run KEY remote getDocument recognize w file txt
                Hfile Hext) as Hrun.
  split; intros Ht.
  - now rewrite Ht in Hrun.
  - destruct (trim txt); [congruence|exact Hrun].
Qed.

Lemma handleSummarise_short_circuit_witness :
  App.handleSummarise None Sample.offline (Sample.parser Sample.no_pages)
    Sample.no_ocr (Sample.selected (Sample.text_file [32; 9; 10; 160]%N))
  = (Normal tt,
     mkWorld []
       (State.mk (Some (Sample.text_file [32; 9; 10; 160]%N)) (lit "medium")
                 false App.NO_TEXT None [32; 9; 10; 160]%N)).
Proof.
  exact (proj1 (handleSummarise_short_circuit None Sample.offline
                  (Sample.parser Sample.no_pages) Sample.no_ocr
                  (Sample.selected (Sample.text_file [32; 9; 10; 160]%N))
                  (Sample.text_file [32; 9; 10; 160]%N) [32; 9; 10; 160]%N
                  eq_refl eq_refl)
               eq_refl).
Defined.

(** C10. A PDF whose page count is zero extracts to the empty string,
    without failing, and the run then ends as in the empty-text case: the
    "could not extract any text" message and no request. *)
Theorem zero_pages_no_content
    (KEY : option jsstring)
    (remote : Net.Request -> Completion Net.Response)
    (getDocument : list N -> Completion Pdf.PDFDocumentProxy)
    (recognize : File -> jsstring -> Completion Ocr.RecognizeResult)
    (w : World) (file : File) (buf : list N) (pdf : Pdf.PDFDocumentProxy) :
  State.file (ui w) = Some file ->
  type file = Some App.PDF_TYPE ->
  arrayBuffer file = Normal buf ->
  getDocument buf = Normal pdf ->
  Pdf.numPages pdf = 0%Z ->
  (forall w', Pdf.extractPdfText getDocument file w' = (Normal [], w')) /\
  App.handleSummarise KEY remote getDocument recognize w =
  (Normal tt,
   mkWorld (sent w)
           (State.mk (Some file) (State.length (ui w)) false App.NO_TEXT None [])).
Proof.
  intros Hfile Htype Hbuf Hdoc Hzero.
  assert (Hex : forall w', Pdf.extractPdfText getDocument file w' = (Normal [], w')).
  { intros w'. unfold Pdf.extractPdfText, bind, await, Pdf.loop_fuel.
    rewrite Hbuf, Hdoc, Hzero. reflexivity. }
  split; [exact Hex|].
  rewrite (handleSummarise_run KEY remote getDocument recognize w file [] Hfile).
  - reflexivity.
  - unfold App.extractTextFromFile. rewrite Htype.
    replace (App.strict_eq (Some App.PDF_TYPE) App.PDF_TYPE) with true by reflexivity.
    now rewrite Hex.
Qed.

Lemma zero_pages_no_content_witness :
  App.handleSummarise (Some (lit "k")) Sample.offline
    (Sample.parser Sample.no_pages) Sample.no_ocr (Sample.selected Sample.pdf_file)
  = (Normal tt,
     mkWorld []
       (State.mk (Some Sample.pdf_file) (lit "medium") false App.NO_TEXT None [])).
Proof.
  exact (proj2 (zero_pages_no_content (Some (lit "k")) Sample.offline
                  (Sample.parser Sample.no_pages) Sample.no_ocr
                  (Sample.selected Sample.pdf_file) Sample.pdf_file
                  [37; 80; 68]%N Sample.no_pages
                  eq_refl eq_refl eq_refl eq_refl eq_refl)).
Defined.

(** ** The summarisation client *)

(** C7. Without a credential (the key is undefined, or the empty string),
    the client throws the configuration error at once and leaves the world
    as it was: nothing is handed to [fetch]. *)
Theorem summarise_missing_key
    (KEY : option jsstring)
    (remote : Net.Request -> Completion Net.Response)
    (text : jsstring) (length : option jsstring) (w : World) :
  KEY = None \/ KEY = Some [] ->
  Gemini.summariseWithGemini KEY remote text length w
  = (Throw (Error (lit "Missing VITE_GEMINI_API_KEY in .env.local")), w).
Proof.
  intros [-> | ->]; reflexivity.
Qed.

Lemma summarise_missing_key_witness :
  Gemini.summariseWithGemini None Sample.offline (lit "some text") None Sample.world0
  = (Throw (Error (lit "Missing VITE_GEMINI_API_KEY in .env.local")), Sample.world0).
Proof.
  exact (summarise_missing_key None Sample.offline (lit "some text") None
           Sample.world0 (or_introl eq_refl)).
Defined.

(** With a credential, the client hands exactly one request to [fetch],
    whose text part is the prompt. *)
Lemma summarise_sends_prompt
    (KEY : option jsstring)
    (remote : Net.Request -> Completion Net.Response)
    (text : jsstring) (length : option jsstring) (w : World) :
  truthy KEY = true ->
  sent (snd (Gemini.summariseWithGemini KEY remote text length w))
  = sent w ++ [Gemini.request KEY (Gemini.prompt (Gemini.target length) text)].
Proof.
  intros Hkey.
  unfold Gemini.summariseWithGemini, Gemini.mustKey, bind.
  rewrite Hkey. cbn [negb ret]. unfold Gemini.fetch.
  destruct (remote _) as [res|e]; [|reflexivity].
  destruct (Net.ok res); cbn [negb]; [|reflexivity].
  unfold await. destruct (Net.json res) as [json|e]; reflexivity.
Qed.

(** C6. The prompt that goes out embeds, between the fixed head and tail
    of the template, the first 180,000 code units of the text: the whole
    text when it is no longer than that, and otherwise exactly 180,000
    code units, the rest being dropped without an error. *)
Theorem prompt_truncation
    (KEY : option jsstring)
    (remote : Net.Request -> Completion Net.Response)
    (text : jsstring) (length : option jsstring) (w : World) :
  truthy KEY = true ->
  sent (snd (Gemini.summariseWithGemini KEY remote text length w))
  = sent w ++ [Gemini.request KEY
                 (Gemini.prompt_head (Gemini.target length)
                    ++ firstn (Z.to_nat 180000) text
                    ++ Gemini.prompt_tail)] /\
  ((Z.of_nat (List.length text) <= 180000)%Z ->
   firstn (Z.to_nat 180000) text = text) /\
  ((Z.of_nat (List.length text) > 180000)%Z ->
   Z.of_nat (List.length (firstn (Z.to_nat 180000) text)) = 180000%Z /\
   text = firstn (Z.to_nat 180000) text ++ skipn (Z.to_nat 180000) text /\
   skipn (Z.to_nat 180000) text <> []).
Proof.
  intros Hkey. split; [|split].
  - rewrite (summarise_sends_prompt KEY remote text length w Hkey).
    unfold Gemini.prompt. now rewrite slice_prefix by lia.
  - intros Hle. apply firstn_all2. lia.
  - intros Hgt. split; [|split].
    + rewrite length_firstn. lia.
    + symmetry. apply firstn_skipn.
    + intros Hnil. apply (f_equal (@List.length _)) in Hnil.
      rewrite length_skipn in Hnil. simpl in Hnil. lia.
Qed.

Lemma prompt_truncation_witness :
  sent (snd (Gemini.summariseWithGemini (Some (lit "k")) Sample.offline
               (lit "abc") None Sample.world0))
  = [Gemini.request (Some (lit "k"))
       (Gemini.prompt_head (Gemini.VString Gemini.medium_words)
          ++ lit "abc" ++ Gemini.prompt_tail)].
Proof.
  exact (proj1 (prompt_truncation (Some (lit "k")) Sample.offline (lit "abc")
                  None Sample.world0 eq_refl)).
Defined.

(** A text of 180,001 code units loses its last one. *)
Example slice_long :
  slice (repeat 97%N (Z.to_nat 180001)) 0 180000 = repeat 97%N (Z.to_nat 180000).
Proof.
  rewrite slice_prefix by lia.
  replace (Z.to_nat 180001) with (Z.to_nat 180000 + 1)%nat by lia.
  rewrite repeat_app, firstn_app, repeat_length, Nat.sub_diag. simpl firstn at 2.
  rewrite app_nil_r. apply firstn_all2. rewrite repeat_length. lia.
Qed.

(** *** The length directive *)

Lemma includes_here (s p : jsstring) : startsWith s p = true -> includes s p = true.
Proof. intros H. destruct s; simpl; rewrite H; reflexivity. Qed.

Lemma includes_infix (a p b : jsstring) : includes (a ++ p ++ b) p = true.
Proof.
  induction a as [|x a IH].
  - apply includes_here. apply startsWith_prefix. now exists b.
  - simpl app. simpl includes. rewrite IH. apply orb_true_r.
Qed.

(** The directive of the table is interpolated in the rules of the
    prompt, whatever the text. *)
Lemma prompt_includes_target (tgt : Gemini.Value) (text : jsstring) :
  includes (Gemini.prompt tgt text) (Gemini.to_string tgt) = true.
Proof.
  unfold Gemini.prompt, Gemini.prompt_head.
  rewrite <- !app_assoc. apply includes_infix.
Qed.

(** The three lengths of the table select their directive, and an omitted
    length is "medium". *)
Lemma target_short : Gemini.target (Some (lit "short")) = Gemini.VString Gemini.short_words.
Proof. reflexivity. Qed.

Lemma target_medium : Gemini.target (Some (lit "medium")) = Gemini.VString Gemini.medium_words.
Proof. reflexivity. Qed.

Lemma target_long : Gemini.target (Some (lit "long")) = Gemini.VString Gemini.long_words.
Proof. reflexivity. Qed.

Lemma target_omitted : Gemini.target None = Gemini.VString Gemini.medium_words.
Proof. reflexivity. Qed.

(** A length that names neither a row of the table nor a member of
    [Object.prototype] falls back to the medium directive. *)
Lemma target_unknown (l : jsstring) :
  Gemini.assoc Gemini.directives l = None ->
  Gemini.assoc Gemini.object_prototype l = None ->
  Gemini.target (Some l) = Gemini.VString Gemini.medium_words.
Proof.
  intros Hown Hproto. unfold Gemini.target, Gemini.literal_get, Gemini.length_param.
  now rewrite Hown, Hproto.
Qed.

Lemma target_verbose :
  Gemini.target (Some (lit "verbose")) = Gemini.VString Gemini.medium_words.
Proof. apply target_unknown; reflexivity. Qed.

Lemma prompt_short_directive (text : jsstring) :
  includes (Gemini.prompt (Gemini.target (Some (lit "short"))) text)
           Gemini.short_words = true.
Proof. rewrite target_short. apply (prompt_includes_target (Gemini.VString _)). Qed.

(** C8, at a length that names a member of [Object.prototype]: the lookup
    in the table finds the inherited member, which is truthy, so the
    fallback is not taken and the prompt carries the text of a function
    where the medium directive should stand. *)
Theorem target_inherited_member :
  Gemini.target (Some (lit "constructor")) = Gemini.VFunction (lit "Object") /\
  Gemini.to_string (Gemini.target (Some (lit "constructor")))
  = lit "function Object() { [native code] }" /\
  includes (Gemini.prompt (Gemini.target (Some (lit "constructor"))) (lit "Some text."))
           Gemini.medium_words = false.
Proof. repeat split; vm_compute; reflexivity. Qed.

(** *** The scan for a JSON-like substring *)

Lemma greedy_to_close_none (s : jsstring) :
  Reference.free_of RBRACE s -> greedy_to_close s = None.
Proof.
  unfold Reference.free_of.
  induction s as [|c s IH]; simpl; [reflexivity|].
  intros H. apply andb_true_iff in H as [Hc Hs].
  rewrite (IH Hs). apply negb_true_iff in Hc. now rewrite Hc.
Qed.

(** The greedy part runs to the last closing brace. *)
Lemma greedy_to_close_last (body post : jsstring) :
  Reference.free_of RBRACE post ->
  greedy_to_close (body ++ RBRACE :: post) = Some (body ++ [RBRACE]).
Proof.
  intros Hpost. induction body as [|c body IH]; simpl.
  - rewrite (greedy_to_close_none post Hpost). reflexivity.
  - now rewrite IH.
Qed.

(** The match starts at the first opening brace. *)
Lemma match_braces_first (pre s : jsstring) :
  Reference.free_of LBRACE pre -> match_braces (pre ++ s) = match_braces s.
Proof.
  unfold Reference.free_of.
  induction pre as [|c pre IH]; simpl; [reflexivity|].
  intros H. apply andb_true_iff in H as [Hc Hs].
  apply negb_true_iff in Hc. rewrite Hc. now apply IH.
Qed.

(** A string without a closing brace after its first opening brace has no
    match. *)
Lemma match_braces_none (s : jsstring) :
  greedy_to_close s = None -> match_braces s = None.
Proof.
  induction s as [|c s IH]; simpl; [reflexivity|].
  destruct (greedy_to_close s) as [m|]; [discriminate|].
  intros _. rewrite (IH eq_refl). now destruct (c =? LBRACE)%N.
Qed.

(** The match is the run from the first opening brace to the last closing
    brace. *)
Lemma match_braces_span (pre body post : jsstring) :
  Reference.free_of LBRACE pre ->
  Reference.free_of RBRACE post ->
  match_braces (pre ++ (LBRACE :: body ++ [RBRACE]) ++ post)
  = Some (LBRACE :: body ++ [RBRACE]).
Proof.
  intros Hpre Hpost. rewrite (match_braces_first pre _ Hpre).
  simpl. rewrite <- app_assoc. simpl.
  now rewrite (greedy_to_close_last body post Hpost).
Qed.

(** *** Decoding *)

Lemma decode_total (raw : jsstring) : exists v, Gemini.decode raw = Normal v.
Proof.
  unfold Gemini.decode, try_catch.
  destruct (match_braces raw) as [m|]; [|now eexists].
  destruct (JSON_parse m); now eexists.
Qed.

Lemma decode_no_match (raw : jsstring) :
  match_braces raw = None -> Gemini.decode raw = Normal (Gemini.fallback raw).
Proof. intros H. unfold Gemini.decode. now rewrite H. Qed.

Lemma decode_parse_error (raw m : jsstring) (e : JsError) :
  match_braces raw = Some m -> JSON_parse m = Throw e ->
  Gemini.decode raw = Normal (Gemini.fallback raw).
Proof. intros Hm He. unfold Gemini.decode. now rewrite Hm, He. Qed.

Lemma decode_parsed (raw m : jsstring) (v : Json) :
  match_braces raw = Some m -> JSON_parse m = Normal v ->
  Gemini.decode raw = Normal v.
Proof. intros Hm Hv. unfold Gemini.decode. now rewrite Hm, Hv. Qed.

Lemma parse_reply : JSON_parse Sample.reply = Normal Sample.reply_object.
Proof. vm_compute. reflexivity. Qed.

Lemma fallback_well_formed (raw : jsstring) :
  Reference.well_formed (Gemini.fallback raw) = true.
Proof. reflexivity. Qed.

(** The four replies of the specification. *)
Example decode_reply : Gemini.decode Sample.reply = Normal Sample.reply_object.
Proof. vm_compute. reflexivity. Qed.

Example decode_in_prose :
  Gemini.decode (Sample.plain_prose ++ Sample.reply) = Normal Sample.reply_object.
Proof. vm_compute. reflexivity. Qed.

Example decode_no_json :
  Gemini.decode Sample.no_json = Normal (Gemini.fallback Sample.no_json).
Proof. vm_compute. reflexivity. Qed.

Example decode_bad_json :
  Gemini.decode Sample.bad_json = Normal (Gemini.fallback Sample.bad_json).
Proof. vm_compute. reflexivity. Qed.

(** C3, as the code has it. Decoding a reply never throws. (i) The reply
    [{"summary":"A","key_points":["x","y"]}] decodes to the object it
    denotes. (ii) So does that reply inside prose, provided the prose has
    no opening brace before it and no closing brace after it: the scan runs
    from the first opening brace to the last closing brace. (iii) A reply
    where the scan finds nothing decodes to the fallback, with the whole
    reply as summary and no key points. (iv) So does a reply whose scanned
    substring does not parse. *)
Theorem decode_fallback_chain :
  (forall raw, exists v, Gemini.decode raw = Normal v) /\
  Gemini.decode Sample.reply = Normal Sample.reply_object /\
  (forall pre post,
     Reference.free_of LBRACE pre -> Reference.free_of RBRACE post ->
     Gemini.decode (pre ++ Sample.reply ++ post) = Normal Sample.reply_object) /\
  (forall raw,
     match_braces raw = None ->
     Gemini.decode raw = Normal (Gemini.fallback raw)) /\
  (forall raw m e,
     match_braces raw = Some m -> JSON_parse m = Throw e ->
     Gemini.decode raw = Normal (Gemini.fallback raw)).
Proof.
  split; [exact decode_total|].
  split; [exact decode_reply|].
  split; [|split; [exact decode_no_match|exact decode_parse_error]].
  intros pre post Hpre Hpost.
  apply (decode_parsed _ Sample.reply).
  - apply (match_braces_span pre Sample.reply_body post Hpre Hpost).
  - exact parse_reply.
Qed.

Lemma decode_fallback_chain_witness :
  Gemini.decode (Sample.plain_prose ++ Sample.reply ++ lit " Hope it helps.")
  = Normal Sample.reply_object
  /\ Gemini.decode Sample.no_json = Normal (Gemini.fallback Sample.no_json)
  /\ Gemini.decode Sample.bad_json = Normal (Gemini.fallback Sample.bad_json).
Proof.
  destruct decode_fallback_chain as (_ & _ & Hprose & Hnone & Hbad).
  split; [|split].
  - apply Hprose; reflexivity.
  - apply Hnone. reflexivity.
  - apply (Hbad _ Sample.bad_json
             (SyntaxError (lit "Unexpected token in JSON"))); reflexivity.
Defined.

(** C3 as stated fails when the prose has braces of its own: the scan then
    starts at the brace of the prose, the substring does not parse, and the
    reply decodes to the fallback instead of the embedded object. *)
Lemma decode_braced_prose :
  Gemini.decode (Sample.braced_prose ++ Sample.reply)
  = Normal (Gemini.fallback (Sample.braced_prose ++ Sample.reply)) /\
  Gemini.decode (Sample.braced_prose ++ Sample.reply) <> Normal Sample.reply_object.
Proof.
  assert (H : Gemini.decode (Sample.braced_prose ++ Sample.reply)
              = Normal (Gemini.fallback (Sample.braced_prose ++ Sample.reply)))
    by (vm_compute; reflexivity).
  split; [exact H|]. rewrite H. vm_compute. discriminate.
Qed.

(** With a credential and a successful answer whose body is [json], the
    client completes as the decoder does on the payload of [json]. *)
Lemma summarise_decodes
    (KEY : option jsstring)
    (remote : Net.Request -> Completion Net.Response)
    (text : jsstring) (length : option jsstring) (w : World)
    (res : Net.Response) (json : Json) :
  truthy KEY = true ->
  remote (Gemini.request KEY (Gemini.prompt (Gemini.target length) text)) = Normal res ->
  Net.ok res = true ->
  Net.json res = Normal json ->
  fst (Gemini.summariseWithGemini KEY remote text length w)
  = Gemini.decode_value (Gemini.raw_of json).
Proof.
  intros Hkey Hres Hok Hjson.
  unfold Gemini.summariseWithGemini, Gemini.mustKey, bind.
  rewrite Hkey. cbn [negb ret]. unfold Gemini.fetch.
  rewrite Hres, Hok. cbn [negb]. unfold await. now rewrite Hjson.
Qed.

(** C4, as the code has it. When the envelope holds no text payload (the
    chain of optional accesses gives undefined, or the payload is null),
    the decoder takes the two-character string of an empty JSON object for
    the reply, so the result is the empty object: it has neither a summary
    nor key points. *)
Theorem absent_payload_empty_object (json : Json) :
  Gemini.payload json = None \/ Gemini.payload json = Some JNull ->
  Gemini.raw_of json = JStr [LBRACE; RBRACE] /\
  Gemini.decode_value (Gemini.raw_of json) = Normal (JObj []).
Proof.
  intros H.
  assert (Hraw : Gemini.raw_of json = JStr [LBRACE; RBRACE])
    by (unfold Gemini.raw_of; destruct H as [-> | ->]; reflexivity).
  split; [exact Hraw|]. rewrite Hraw. reflexivity.
Qed.

Lemma absent_payload_empty_object_witness :
  Gemini.raw_of Sample.empty_envelope = JStr [LBRACE; RBRACE] /\
  Gemini.decode_value (Gemini.raw_of Sample.empty_envelope) = Normal (JObj []).
Proof.
  exact (absent_payload_empty_object Sample.empty_envelope (or_introl eq_refl)).
Defined.

(** C4 as stated fails: for an envelope without a payload the client does
    not return the fallback for the empty reply. *)
Lemma absent_payload_not_empty_summary :
  Gemini.payload Sample.empty_envelope = None /\
  fst (Gemini.summariseWithGemini (Some (lit "k"))
         (Sample.answering Sample.empty_envelope) (lit "Some text.") None
         Sample.world0)
  <> Normal (Gemini.fallback []).
Proof.
  split; [reflexivity|]. vm_compute. discriminate.
Qed.

(** A payload that is present and empty does decode to the empty summary:
    only the absent one is replaced. *)
Example empty_payload_empty_summary :
  Gemini.decode_value (Gemini.raw_of (Sample.envelope (JStr [])))
  = Normal (Gemini.fallback []).
Proof. reflexivity. Qed.

(** C5, as the code has it. Decoding always gives a result. On the
    fallback path (the scan finds nothing, or its substring does not
    parse) the result is the well-formed pair of the whole reply and no key
    points. When the substring parses, the result is the parsed value as it
    is, whatever its fields. *)
Theorem decode_shape (raw : jsstring) :
  (exists v, Gemini.decode raw = Normal v) /\
  (match_braces raw = None \/
   (exists m e, match_braces raw = Some m /\ JSON_parse m = Throw e) ->
   Gemini.decode raw = Normal (Gemini.fallback raw) /\
   Reference.well_formed (Gemini.fallback raw) = true) /\
  (forall m v,
     match_braces raw = Some m -> JSON_parse m = Normal v ->
     Gemini.decode raw = Normal v).
Proof.
  split; [apply decode_total|]. split.
  - intros [Hnone | (m & e & Hm & He)]; split;
      try apply fallback_well_formed.
    + now apply decode_no_match.
    + now apply (decode_parse_error raw m e).
  - intros m v. apply decode_parsed.
Qed.

Lemma decode_shape_witness :
  Gemini.decode Sample.bad_json = Normal (Gemini.fallback Sample.bad_json) /\
  Reference.well_formed (Gemini.fallback Sample.bad_json) = true.
Proof.
  refine (proj1 (proj2 (decode_shape Sample.bad_json)) (or_intror _)).
  exists Sample.bad_json, (SyntaxError (lit "Unexpected token in JSON")).
  split; reflexivity.
Defined.

(** C5 as stated fails: a reply that is JSON but not a SummaryResult comes
    back from the client as parsed, here with a number for summary and no
    key points. *)
Lemma summarise_returns_unvalidated :
  fst (Gemini.summariseWithGemini (Some (lit "k"))
         (Sample.answering (Sample.envelope (JStr Sample.odd_json)))
         (lit "Some text.") None Sample.world0)
  = Normal (JObj [ (lit "summary", JNum (lit "42")) ]) /\
  Reference.well_formed (JObj [ (lit "summary", JNum (lit "42")) ]) = false.
Proof. split; vm_compute; reflexivity. Qed.

(** * Further properties of the pipeline *)

(** ** Failures of the structured-document extraction *)

(** The loop stops at the first page that cannot be read. *)
Lemma pages_loop_failure n : forall fuel pdf p k chunks e (w : World),
  (p + Z.of_nat n = k)%Z ->
  (n < fuel)%nat ->
  (k <= Pdf.numPages pdf)%Z ->
  (forall q, (p <= q < k)%Z ->
     exists page content,
       Pdf.getPage pdf q = Normal page /\
       Pdf.getTextContent page = Normal content) ->
  (Pdf.getPage pdf k = Throw e \/
   exists page, Pdf.getPage pdf k = Normal page /\
                Pdf.getTextContent page = Throw e) ->
  Pdf.pages_loop fuel pdf p chunks w = (Throw e, w).
Proof.
  induction n as [|n IH]; intros fuel pdf p k chunks e w Hk Hfuel Hle Hread Hfail;
    (destruct fuel as [|fuel]; [lia|]); simpl Pdf.pages_loop;
    replace (p <=? Pdf.numPages pdf)%Z with true by (symmetry; apply Z.leb_le; lia).
  - assert (p = k) by lia. subst p.
    unfold bind at 1. unfold Pdf.page_text, bind, await, ret.
    destruct Hfail as [Hp | (page & Hp & Hc)].
    + now rewrite Hp.
    + now rewrite Hp, Hc.
  - destruct (Hread p) as (page & content & Hp & Hc); [lia|].
    unfold bind at 1. unfold Pdf.page_text, bind, await, ret.
    rewrite Hp, Hc.
    apply (IH fuel pdf (p + 1)%Z k); try lia; try assumption.
    intros q Hq. apply Hread. lia.
Qed.

(** X1. When the pages before page [k] can be read and page [k] cannot,
    the extraction fails with the error of page [k], whatever the later
    pages hold: no partial text is returned. *)
Theorem extractPdfText_first_failure
    (getDocument : list N -> Completion Pdf.PDFDocumentProxy)
    (file : File) (buf : list N) (pdf : Pdf.PDFDocumentProxy)
    (k : Z) (e : JsError) :
  arrayBuffer file = Normal buf ->
  getDocument buf = Normal pdf ->
  (1 <= k <= Pdf.numPages pdf)%Z ->
  (forall q, (1 <= q < k)%Z ->
     exists page content,
       Pdf.getPage pdf q = Normal page /\
       Pdf.getTextContent page = Normal content) ->
  (Pdf.getPage pdf k = Throw e \/
   exists page, Pdf.getPage pdf k = Normal page /\
                Pdf.getTextContent page = Throw e) ->
  forall w, Pdf.extractPdfText getDocument file w = (Throw e, w).
Proof.
  intros Hbuf Hdoc Hk Hread Hfail w.
  unfold Pdf.extractPdfText, bind at 1, await. rewrite Hbuf.
  unfold bind at 1. rewrite Hdoc. unfold bind.
  rewrite (pages_loop_failure (Z.to_nat (k - 1)) (Pdf.loop_fuel pdf 1) pdf 1 k [] e w);
    try assumption; try reflexivity; unfold Pdf.loop_fuel; lia.
Qed.

Lemma extractPdfText_first_failure_witness :
  Pdf.extractPdfText (Sample.parser Case.broken_doc) Sample.pdf_file Sample.world0
  = (Throw (Error (lit "Invalid page request.")), Sample.world0).
Proof.
  refine (extractPdfText_first_failure (Sample.parser Case.broken_doc) Sample.pdf_file
            [37; 80; 68]%N Case.broken_doc 2 (Error (lit "Invalid page request."))
            eq_refl eq_refl _ _ (or_introl eq_refl) Sample.world0).
  - simpl. lia.
  - intros q Hq. assert (q = 1%Z) by lia. subst q.
    eexists. eexists. split; reflexivity.
Defined.

(** ** Runs of [handleSummarise] that end without a summary *)

Section Runs.

Variable KEY : option jsstring.
Variable remote : Net.Request -> Completion Net.Response.
Variable getDocument : list N -> Completion Pdf.PDFDocumentProxy.
Variable recognize : File -> jsstring -> Completion Ocr.RecognizeResult.

(** One run of [handleSummarise] on a file whose extraction fails. *)
Lemma handleSummarise_extraction_throws (w : World) (file : File) (e : JsError) :
  State.file (ui w) = Some file ->
  fst (App.extractTextFromFile getDocument recognize file w) = Throw e ->
  App.handleSummarise KEY remote getDocument recognize w =
  (Normal tt,
   mkWorld (sent w)
           (State.mk (Some file) (State.length (ui w)) false
                     (if truthy (Some (message e)) then message e else App.WENT_WRONG)
                     None (State.rawText (ui w)))).
Proof.
  intros Hfile Hext.
  destruct (extractTextFromFile_pure getDocument recognize file) as [c Hc].
  rewrite Hc in Hext. simpl in Hext. subst c.
  unfold App.handleSummarise. rewrite Hfile.
  unfold App.finally, App.catching, App.summarise_file.
  unfold bind, App.setLoading, App.setError, App.setResult, App.setRawText,
    App.update, App.on_error.
  rewrite Hc. cbn [sent ui State.file State.length State.loading State.error
                   State.result State.rawText].
  rewrite Hfile. reflexivity.
Qed.

(** The client changes the world by at most one request. *)
Lemma summarise_world (text : jsstring) (length : option jsstring) (w : World) :
  snd (Gemini.summariseWithGemini KEY remote text length w) = w \/
  snd (Gemini.summariseWithGemini KEY remote text length w)
  = mkWorld (sent w ++ [Gemini.request KEY (Gemini.prompt (Gemini.target length) text)])
            (ui w).
Proof.
  unfold Gemini.summariseWithGemini, Gemini.mustKey, bind.
  destruct (truthy KEY); cbn [negb ret throw].
  - right. unfold Gemini.fetch.
    destruct (remote _) as [res|e]; [|reflexivity].
    destruct (Net.ok res); cbn [negb]; [|reflexivity].
    unfold await. destruct (Net.json res) as [json|e]; reflexivity.
  - left. reflexivity.
Qed.

End Runs.

(** X2. When the extraction of the selected file fails, the run ends with
    the message of the error on display (or "Something went wrong." when
    the error has none), no result, the spinner off, the stored text as it
    was, and nothing handed to [fetch]. *)
Theorem handleSummarise_extraction_failure
    (KEY : option jsstring)
    (remote : Net.Request -> Completion Net.Response)
    (getDocument : list N -> Completion Pdf.PDFDocumentProxy)
    (recognize : File -> jsstring -> Completion Ocr.RecognizeResult)
    (w : World) (file : File) (e : JsError) :
  State.file (ui w) = Some file ->
  fst (App.extractTextFromFile getDocument recognize file w) = Throw e ->
  App.handleSummarise KEY remote getDocument recognize w =
  (Normal tt,
   mkWorld (sent w)
           (State.mk (Some file) (State.length (ui w)) false
                     (match message e with [] => App.WENT_WRONG | _ :: _ => message e end)
                     None (State.rawText (ui w)))).
Proof.
  intros Hfile Hext.
  rewrite (handleSummarise_extraction_throws KEY remote getDocument recognize
             w file e Hfile Hext).
  destruct (message e); reflexivity.
Qed.

Lemma handleSummarise_extraction_failure_witness :
  App.handleSummarise (Some (lit "k")) Sample.offline Case.corrupt Sample.no_ocr
    (Sample.selected Sample.pdf_file)
  = (Normal tt,
     mkWorld []
       (State.mk (Some Sample.pdf_file) (lit "medium") false
                 (lit "Invalid PDF structure.") None [])).
Proof.
  exact (handleSummarise_extraction_failure (Some (lit "k")) Sample.offline
           Case.corrupt Sample.no_ocr (Sample.selected Sample.pdf_file)
           Sample.pdf_file (Error (lit "Invalid PDF structure.")) eq_refl eq_refl).
Defined.

(** ** Files without readable text *)

Lemma page_numbers_length n : forall p, List.length (Reference.page_numbers p n) = n.
Proof. induction n as [|n IH]; intros p; simpl; [reflexivity|now rewrite IH]. Qed.

(** Joining empty page strings leaves the separators only. *)
Lemma join_empty_pages {A} (l : list A) :
  join [LF; LF] (map (fun _ => []) l) = repeat LF (2 * (List.length l - 1)).
Proof.
  induction l as [|x l IH]; [reflexivity|].
  destruct l as [|y l]; [reflexivity|].
  change (join [LF; LF] (map (fun _ => []) (x :: y :: l)))
    with ([LF; LF] ++ join [LF; LF] (map (fun _ : A => @nil char16) (y :: l))).
  rewrite IH. simpl List.length.
  replace (2 * (S (S (List.length l)) - 1))%nat
    with (S (S (2 * (S (List.length l) - 1))))%nat by lia.
  reflexivity.
Qed.

Lemma repeat_white c n : is_white_space c = true -> forallb is_white_space (repeat c n) = true.
Proof. intros Hc. induction n as [|n IH]; simpl; [reflexivity|now rewrite Hc, IH]. Qed.

(** The extraction of a document that reads as [n] pages with the given
    fragments. *)
Lemma extractPdfText_reads
    (getDocument : list N -> Completion Pdf.PDFDocumentProxy)
    (file : File) (buf : list N) (pdf : Pdf.PDFDocumentProxy)
    (n : nat) (fragments : Z -> list jsstring) (w : World) :
  arrayBuffer file = Normal buf ->
  getDocument buf = Normal pdf ->
  Reference.reads_as pdf n fragments ->
  Pdf.extractPdfText getDocument file w = (Normal (Reference.extraction n fragments), w).
Proof.
  intros Hbuf Hdoc [Hn Hpages].
  unfold Pdf.extractPdfText, bind, await. rewrite Hbuf, Hdoc.
  assert (Hfuel : Pdf.loop_fuel pdf 1 = n) by (unfold Pdf.loop_fuel; lia).
  rewrite Hfuel.
  rewrite (pages_loop_chunks n pdf 1 [] fragments w); [reflexivity|lia|].
  intros q Hq. apply Hpages. lia.
Qed.

(** X3. A PDF whose pages hold no text items, as a scanned document does,
    extracts to the separators alone, two line feeds between consecutive
    pages; the run then ends with the "could not extract any text" message,
    and nothing is handed to [fetch]. *)
Theorem scanned_pdf_no_content
    (KEY : option jsstring)
    (remote : Net.Request -> Completion Net.Response)
    (getDocument : list N -> Completion Pdf.PDFDocumentProxy)
    (recognize : File -> jsstring -> Completion Ocr.RecognizeResult)
    (w : World) (file : File) (buf : list N) (pdf : Pdf.PDFDocumentProxy) (n : nat) :
  State.file (ui w) = Some file ->
  type file = Some App.PDF_TYPE ->
  arrayBuffer file = Normal buf ->
  getDocument buf = Normal pdf ->
  Reference.reads_as pdf n (fun _ => []) ->
  Pdf.extractPdfText getDocument file w = (Normal (repeat LF (2 * (n - 1))), w) /\
  App.handleSummarise KEY remote getDocument recognize w =
  (Normal tt,
   mkWorld (sent w)
           (State.mk (Some file) (State.length (ui w)) false App.NO_TEXT None
                     (repeat LF (2 * (n - 1))))).
Proof.
  intros Hfile Htype Hbuf Hdoc Hreads.
  assert (Hex : Pdf.extractPdfText getDocument file w
                = (Normal (repeat LF (2 * (n - 1))), w)).
  { rewrite (extractPdfText_reads getDocument file buf pdf n (fun _ => []) w
               Hbuf Hdoc Hreads).
    unfold Reference.extraction.
    change (fun p : Z => join (lit " ") (@nil jsstring)) with (fun _ : Z => @nil char16).
    now rewrite join_empty_pages, page_numbers_length. }
  split; [exact Hex|].
  rewrite (handleSummarise_run KEY remote getDocument recognize w file
             (repeat LF (2 * (n - 1))) Hfile).
  - assert (Ht : trim (repeat LF (2 * (n - 1))) = [])
      by (apply trim_nil, repeat_white; reflexivity).
    now rewrite Ht.
  - unfold App.extractTextFromFile. rewrite Htype.
    replace (App.strict_eq (Some App.PDF_TYPE) App.PDF_TYPE) with true by reflexivity.
    now rewrite Hex.
Qed.

Lemma scanned_pdf_no_content_witness :
  App.handleSummarise (Some (lit "k")) Sample.offline
    (Sample.parser Case.scanned_doc) Sample.no_ocr (Sample.selected Sample.pdf_file)
  = (Normal tt,
     mkWorld []
       (State.mk (Some Sample.pdf_file) (lit "medium") false App.NO_TEXT None
                 [LF; LF; LF; LF])).
Proof.
  refine (proj2 (scanned_pdf_no_content (Some (lit "k")) Sample.offline
                   (Sample.parser Case.scanned_doc) Sample.no_ocr
                   (Sample.selected Sample.pdf_file) Sample.pdf_file
                   [37; 80; 68]%N Case.scanned_doc 3
                   eq_refl eq_refl eq_refl eq_refl _)).
  split; [reflexivity|].
  intros p Hp. eexists. eexists. repeat split.
Defined.

(** X4. An image in which the OCR engine finds no text (the reported text
    is undefined, empty, or white space only) ends the run with the "could
    not extract any text" message; nothing is handed to [fetch]. *)
Theorem image_without_text_no_content
    (KEY : option jsstring)
    (remote : Net.Request -> Completion Net.Response)
    (getDocument : list N -> Completion Pdf.PDFDocumentProxy)
    (recognize : File -> jsstring -> Completion Ocr.RecognizeResult)
    (w : World) (file : File) (rest : jsstring) (r : Ocr.RecognizeResult) :
  State.file (ui w) = Some file ->
  type file = Some (App.IMAGE_PREFIX ++ rest) ->
  recognize file (lit "eng") = Normal r ->
  (forall t, Ocr.text (Ocr.data r) = Some t -> forallb is_white_space t = true) ->
  App.handleSummarise KEY remote getDocument recognize w =
  (Normal tt,
   mkWorld (sent w)
           (State.mk (Some file) (State.length (ui w)) false App.NO_TEXT None
                     (match Ocr.text (Ocr.data r) with Some t => t | None => [] end))).
Proof.
  intros Hfile Htype Hrec Hblank.
  set (txt := match Ocr.text (Ocr.data r) with Some t => t | None => [] end).
  assert (Hext : fst (App.extractTextFromFile getDocument recognize file w) = Normal txt).
  { unfold App.extractTextFromFile. rewrite Htype.
    replace (App.strict_eq (Some (App.IMAGE_PREFIX ++ rest)) App.PDF_TYPE)
      with false by reflexivity.
    replace (App.opt_startsWith (Some (App.IMAGE_PREFIX ++ rest)) App.IMAGE_PREFIX)
      with true
      by (symmetry; apply startsWith_prefix; now exists rest).
    unfold Ocr.ocrImage, bind, await, ret. rewrite Hrec. simpl. unfold txt.
    destruct (Ocr.text (Ocr.data r)) as [[|c t]|]; reflexivity. }
  rewrite (handleSummarise_run KEY remote getDocument recognize w file txt Hfile Hext).
  assert (Ht : trim txt = []).
  { apply trim_nil. unfold txt.
    destruct (Ocr.text (Ocr.data r)) as [t|] eqn:E; [now apply Hblank|reflexivity]. }
  now rewrite Ht.
Qed.

Lemma image_without_text_no_content_witness :
  App.handleSummarise (Some (lit "k")) Sample.offline Case.corrupt
    (Case.ocr_reports (Some [32; 10]%N)) (Sample.selected Case.image_file)
  = (Normal tt,
     mkWorld []
       (State.mk (Some Case.image_file) (lit "medium") false App.NO_TEXT None
                 [32; 10]%N)).
Proof.
  refine (image_without_text_no_content (Some (lit "k")) Sample.offline Case.corrupt
            (Case.ocr_reports (Some [32; 10]%N)) (Sample.selected Case.image_file)
            Case.image_file (lit "png") (Ocr.mkResult (Ocr.mkPage (Some [32; 10]%N)))
            eq_refl eq_refl eq_refl _).
  intros t Ht. injection Ht as <-. reflexivity.
Defined.

(** ** Runs of [handleSummarise] that reach the client *)

(** X5. With readable text but no credential, the run ends with the
    configuration message on display, no result, the extracted text stored,
    and nothing handed to [fetch]. *)
Theorem handleSummarise_missing_key
    (KEY : option jsstring)
    (remote : Net.Request -> Completion Net.Response)
    (getDocument : list N -> Completion Pdf.PDFDocumentProxy)
    (recognize : File -> jsstring -> Completion Ocr.RecognizeResult)
    (w : World) (file : File) (txt : jsstring) :
  State.file (ui w) = Some file ->
  fst (App.extractTextFromFile getDocument recognize file w) = Normal txt ->
  trim txt <> [] ->
  KEY = None \/ KEY = Some [] ->
  App.handleSummarise KEY remote getDocument recognize w =
  (Normal tt,
   mkWorld (sent w)
           (State.mk (Some file) (State.length (ui w)) false
                     (lit "Missing VITE_GEMINI_API_KEY in .env.local") None txt)).
Proof.
  intros Hfile Hext Htrim Hkey.
  rewrite (handleSummarise_run KEY remote getDocument recognize w file txt Hfile Hext).
  destruct (trim txt); [congruence|].
  unfold App.calling. rewrite Hfile.
  destruct Hkey as [-> | ->]; reflexivity.
Qed.

Lemma handleSummarise_missing_key_witness :
  App.handleSummarise None Sample.offline Case.corrupt Sample.no_ocr
    (Sample.selected (Sample.text_file (lit "Some text.")))
  = (Normal tt,
     mkWorld []
       (State.mk (Some (Sample.text_file (lit "Some text."))) (lit "medium") false
                 (lit "Missing VITE_GEMINI_API_KEY in .env.local") None
                 (lit "Some text."))).
Proof.
  refine (handleSummarise_missing_key None Sample.offline Case.corrupt Sample.no_ocr
            (Sample.selected (Sample.text_file (lit "Some text.")))
            (Sample.text_file (lit "Some text.")) (lit "Some text.")
            eq_refl eq_refl _ (or_introl eq_refl)).
  vm_compute. discriminate.
Defined.

(** X6. When the service answers with a status that is not a success, the
    run ends with "Gemini error" and the decimal status on display, no
    result, and exactly one request sent: the call is not repeated and the
    body of the answer is not read. *)
Theorem handleSummarise_remote_refusal
    (KEY : option jsstring)
    (remote : Net.Request -> Completion Net.Response)
    (getDocument : list N -> Completion Pdf.PDFDocumentProxy)
    (recognize : File -> jsstring -> Completion Ocr.RecognizeResult)
    (w : World) (file : File) (txt : jsstring) (res : Net.Response) :
  State.file (ui w) = Some file ->
  fst (App.extractTextFromFile getDocument recognize file w) = Normal txt ->
  trim txt <> [] ->
  truthy KEY = true ->
  remote (Gemini.request KEY
            (Gemini.prompt (Gemini.target (Some (State.length (ui w)))) txt))
  = Normal res ->
  Net.ok res = false ->
  App.handleSummarise KEY remote getDocument recognize w =
  (Normal tt,
   mkWorld (sent w ++ [Gemini.request KEY
                         (Gemini.prompt (Gemini.target (Some (State.length (ui w)))) txt)])
           (State.mk (Some file) (State.length (ui w)) false
                     (lit "Gemini error " ++ Gemini.number_text (Net.status res))
                     None txt)).
Proof.
  intros Hfile Hext Htrim Hkey Hres Hok.
  rewrite (handleSummarise_run KEY remote getDocument recognize w file txt Hfile Hext).
  destruct (trim txt); [congruence|].
  unfold App.calling, App.delivered. rewrite Hfile.
  unfold Gemini.summariseWithGemini, Gemini.mustKey, bind.
  rewrite Hkey. cbn [negb ret]. unfold Gemini.fetch. cbn [sent ui].
  rewrite Hres, Hok. reflexivity.
Qed.

Lemma handleSummarise_remote_refusal_witness :
  State.error
    (ui (snd (App.handleSummarise (Some (lit "k")) (Case.refusing 429) Case.corrupt
                Sample.no_ocr
                (Sample.selected (Sample.text_file (lit "Some text."))))))
  = lit "Gemini error 429".
Proof.
  refine (f_equal (fun r => State.error (ui (snd r)))
            (handleSummarise_remote_refusal (Some (lit "k")) (Case.refusing 429)
               Case.corrupt Sample.no_ocr
               (Sample.selected (Sample.text_file (lit "Some text.")))
               (Sample.text_file (lit "Some text.")) (lit "Some text.")
               (Net.mkResponse false 429
                  (Throw (SyntaxError (lit "Unexpected end of JSON input"))))
               eq_refl eq_refl _ eq_refl eq_refl eq_refl)).
  vm_compute. discriminate.
Defined.

(** X7. Every run on a selected file completes normally and leaves the
    component consistent: the same file and length, the spinner off, never
    both a result and an error on display, and at most one request added
    to the log. *)
Theorem handleSummarise_invariant
    (KEY : option jsstring)
    (remote : Net.Request -> Completion Net.Response)
    (getDocument : list N -> Completion Pdf.PDFDocumentProxy)
    (recognize : File -> jsstring -> Completion Ocr.RecognizeResult)
    (w : World) (file : File) :
  State.file (ui w) = Some file ->
  exists w',
    App.handleSummarise KEY remote getDocument recognize w = (Normal tt, w') /\
    State.file (ui w') = Some file /\
    State.length (ui w') = State.length (ui w) /\
    State.loading (ui w') = false /\
    (State.result (ui w') = None \/ State.error (ui w') = []) /\
    (sent w' = sent w \/ exists req, sent w' = sent w ++ [req]).
Proof.
  intros Hfile.
  destruct (extractTextFromFile_pure getDocument recognize file) as [c Hc].
  destruct c as [txt|e].
  - assert (Hext : fst (App.extractTextFromFile getDocument recognize file w) = Normal txt)
      by now rewrite Hc.
    rewrite (handleSummarise_run KEY remote getDocument recognize w file txt Hfile Hext).
    destruct (trim txt).
    + eexists. split; [reflexivity|]. cbn. repeat split; auto.
    + pose proof (summarise_world KEY remote txt (Some (State.length (ui w)))
                    (App.calling w txt)) as Hw.
      destruct (Gemini.summariseWithGemini _ _ _ _ _) as [[out|e] w2];
        cbn [snd] in Hw; unfold App.delivered;
        (eexists; split; [reflexivity|]);
        destruct Hw as [-> | ->]; cbn; rewrite ?Hfile; repeat split; eauto.
  - assert (Hext : fst (App.extractTextFromFile getDocument recognize file w) = Throw e)
      by now rewrite Hc.
    rewrite (handleSummarise_extraction_throws KEY remote getDocument recognize
               w file e Hfile Hext).
    eexists. split; [reflexivity|]. cbn. repeat split; auto.
Qed.

Lemma handleSummarise_invariant_witness :
  exists w',
    App.handleSummarise (Some (lit "k")) (Case.refusing 500) Case.corrupt Sample.no_ocr
      (Sample.selected (Sample.text_file (lit "Some text."))) = (Normal tt, w') /\
    State.file (ui w') = Some (Sample.text_file (lit "Some text.")) /\
    State.length (ui w') = lit "medium" /\
    State.loading (ui w') = false /\
    (State.result (ui w') = None \/ State.error (ui w') = []) /\
    (sent w' = [] \/ exists req, sent w' = [] ++ [req]).
Proof.
  exact (handleSummarise_invariant (Some (lit "k")) (Case.refusing 500) Case.corrupt
           Sample.no_ocr (Sample.selected (Sample.text_file (lit "Some text.")))
           (Sample.text_file (lit "Some text.")) eq_refl).
Defined.

(** X8. A successful run: with a credential, readable text, and an answer
    with a success status whose envelope carries the string [raw], the run
    ends with the decoded reply as result, no error, the spinner off, the
    extracted text stored, and exactly one request sent, whose prompt is
    built from the selected length and the text. *)
Theorem handleSummarise_success
    (KEY : option jsstring)
    (remote : Net.Request -> Completion Net.Response)
    (getDocument : list N -> Completion Pdf.PDFDocumentProxy)
    (recognize : File -> jsstring -> Completion Ocr.RecognizeResult)
    (w : World) (file : File) (txt raw : jsstring)
    (res : Net.Response) (json : Json) :
  State.file (ui w) = Some file ->
  fst (App.extractTextFromFile getDocument recognize file w) = Normal txt ->
  trim txt <> [] ->
  truthy KEY = true ->
  remote (Gemini.request KEY
            (Gemini.prompt (Gemini.target (Some (State.length (ui w)))) txt))
  = Normal res ->
  Net.ok res = true ->
  Net.json res = Normal json ->
  Gemini.payload json = Some (JStr raw) ->
  exists out,
    Gemini.decode raw = Normal out /\
    App.handleSummarise KEY remote getDocument recognize w =
    (Normal tt,
     mkWorld (sent w ++ [Gemini.request KEY
                           (Gemini.prompt (Gemini.target (Some (State.length (ui w)))) txt)])
             (State.mk (Some file) (State.length (ui w)) false [] (Some out) txt)).
Proof.
  intros Hfile Hext Htrim Hkey Hres Hok Hjson Hpay.
  destruct (decode_total raw) as [out Hout]. exists out. split; [exact Hout|].
  rewrite (handleSummarise_run KEY remote getDocument recognize w file txt Hfile Hext).
  destruct (trim txt); [congruence|].
  unfold App.calling, App.delivered. rewrite Hfile.
  unfold Gemini.summariseWithGemini, Gemini.mustKey, bind.
  rewrite Hkey. cbn [negb ret]. unfold Gemini.fetch. cbn [sent ui].
  rewrite Hres, Hok. cbn [negb]. unfold await. rewrite Hjson.
  unfold Gemini.raw_of. rewrite Hpay. cbn [Gemini.nullish Gemini.decode_value].
  rewrite Hout. reflexivity.
Qed.

Lemma handleSummarise_success_witness :
  exists out,
    Gemini.decode (Sample.plain_prose ++ Sample.reply) = Normal out /\
    App.handleSummarise (Some (lit "k"))
      (Sample.answering (Sample.envelope (JStr (Sample.plain_prose ++ Sample.reply))))
      Case.corrupt Sample.no_ocr
      (Sample.selected (Sample.text_file (lit "Some text."))) =
    (Normal tt,
     mkWorld ([] ++ [Gemini.request (Some (lit "k"))
                       (Gemini.prompt (Gemini.target (Some (lit "medium")))
                          (lit "Some text."))])
             (State.mk (Some (Sample.text_file (lit "Some text."))) (lit "medium")
                       false [] (Some out) (lit "Some text."))).
Proof.
  refine (handleSummarise_success (Some (lit "k"))
            (Sample.answering (Sample.envelope (JStr (Sample.plain_prose ++ Sample.reply))))
            Case.corrupt Sample.no_ocr
            (Sample.selected (Sample.text_file (lit "Some text.")))
            (Sample.text_file (lit "Some text.")) (lit "Some text.")
            (Sample.plain_prose ++ Sample.reply)
            (Net.mkResponse true 200
               (Normal (Sample.envelope (JStr (Sample.plain_prose ++ Sample.reply)))))
            (Sample.envelope (JStr (Sample.plain_prose ++ Sample.reply)))
            eq_refl eq_refl _ eq_refl eq_refl eq_refl eq_refl eq_refl).
  vm_compute. discriminate.
Defined.

(** ** The shape of what the decoder returns *)

Lemma match_braces_head (s m : jsstring) :
  match_braces s = Some m -> exists m', m = LBRACE :: m'.
Proof.
  induction s as [|c s IH]; simpl; [discriminate|].
  destruct (c =? LBRACE)%N eqn:Ec; [|exact IH].
  destruct (greedy_to_close s) as [m0|]; [|exact IH].
  intros H. injection H as <-. apply N.eqb_eq in Ec. subst c. now exists m0.
Qed.

(** A text that starts with an opening brace parses to an object or not at
    all. *)
Lemma parse_value_brace (fuel : nat) (s rest : jsstring) (v : Json) :
  parse_value fuel (LBRACE :: s) = POk v rest -> exists props, v = JObj props.
Proof.
  destruct fuel as [|fuel]; simpl; [discriminate|].
  destruct (skip_ws s) as [|d r']; [discriminate|].
  destruct (d =? 125)%N.
  - intros H. injection H as <- _. now exists [].
  - destruct (parse_members (parse_value fuel) fuel s []) as [ps rest'| |];
      try discriminate.
    intros H. injection H as <- _. now exists ps.
Qed.

Lemma JSON_parse_brace (s : jsstring) (v : Json) :
  JSON_parse (LBRACE :: s) = Normal v -> exists props, v = JObj props.
Proof.
  unfold JSON_parse.
  destruct (parse_value _ (LBRACE :: s)) as [v' rest| |] eqn:E; try discriminate.
  destruct (skip_ws rest); [|discriminate].
  intros H. injection H as <-. exact (parse_value_brace _ s rest v' E).
Qed.

(** X9. Whatever the reply, the decoder returns an object: the fallback
    pair, or what the substring from the first opening brace parses to,
    which cannot be an array, a string, a number, a boolean or null. *)
Theorem decode_returns_object (raw : jsstring) :
  exists props, Gemini.decode raw = Normal (JObj props).
Proof.
  unfold Gemini.decode, try_catch.
  destruct (match_braces raw) as [m|] eqn:Hm.
  - destruct (match_braces_head raw m Hm) as [m' ->].
    destruct (JSON_parse (LBRACE :: m')) as [v|e] eqn:Hp.
    + destruct (JSON_parse_brace m' v Hp) as [props ->]. now exists props.
    + eexists. reflexivity.
  - eexists. reflexivity.
Qed.

(** ** The scan, characterised *)

Lemma greedy_to_close_split (s m : jsstring) :
  greedy_to_close s = Some m ->
  exists body post,
    s = body ++ RBRACE :: post /\ m = body ++ [RBRACE] /\
    Reference.free_of RBRACE post.
Proof.
  revert m; induction s as [|c s IH]; intros m; simpl; [discriminate|].
  destruct (greedy_to_close s) as [m0|] eqn:E.
  - intros H. injection H as <-.
    destruct (IH m0 eq_refl) as (body & post & -> & -> & Hpost).
    now exists (c :: body), post.
  - destruct (c =? RBRACE)%N eqn:Ec; [|discriminate].
    intros H. injection H as <-. apply N.eqb_eq in Ec. subst c.
    exists [], s. repeat split.
    clear IH. unfold Reference.free_of.
    induction s as [|x s IHs]; [reflexivity|].
    simpl in E. destruct (greedy_to_close s); [discriminate|].
    destruct (x =? RBRACE)%N eqn:Ex; [discriminate|].
    simpl. rewrite Ex. simpl. now apply IHs.
Qed.

(** X10. The scan of the decoder finds a substring exactly when the reply
    has a closing brace somewhere after its first opening brace, and the
    substring is then the run from that first opening brace to the last
    closing brace of the reply. *)
Theorem match_braces_characterised (raw m : jsstring) :
  match_braces raw = Some m <->
  exists pre body post,
    raw = pre ++ (LBRACE :: body ++ [RBRACE]) ++ post /\
    Reference.free_of LBRACE pre /\
    Reference.free_of RBRACE post /\
    m = LBRACE :: body ++ [RBRACE].
Proof.
  split.
  - revert m. induction raw as [|c raw IH]; intros m; simpl; [discriminate|].
    destruct (c =? LBRACE)%N eqn:Ec.
    + destruct (greedy_to_close raw) as [m0|] eqn:E.
      * intros H. injection H as <-. apply N.eqb_eq in Ec. subst c.
        destruct (greedy_to_close_split raw m0 E) as (body & post & -> & -> & Hpost).
        exists [], body, post. repeat split; [|exact Hpost].
        simpl. now rewrite <- app_assoc.
      * rewrite (match_braces_none raw E). discriminate.
    + intros H. destruct (IH m H) as (pre & body & post & -> & Hpre & Hpost & ->).
      exists (c :: pre), body, post. repeat split; [|exact Hpost].
      unfold Reference.free_of. simpl. rewrite Ec. exact Hpre.
  - intros (pre & body & post & -> & Hpre & Hpost & ->).
    now apply match_braces_span.
Qed.

Lemma match_braces_characterised_witness :
  match_braces (Sample.plain_prose ++ Sample.reply ++ lit " Bye.") = Some Sample.reply.
Proof.
  apply (proj2 (match_braces_characterised
                  (Sample.plain_prose ++ Sample.reply ++ lit " Bye.") Sample.reply)).
  exists Sample.plain_prose, Sample.reply_body, (lit " Bye.").
  repeat split.
Defined.

(** ** Payloads that are not strings *)

(** X11. The decoder protects the parse only: when the service answers
    with a success status and the text of the envelope is present but is
    not a string (a number, a boolean, an array or an object), the client
    throws a TypeError instead of returning a fallback, after the one
    request has been sent. *)
Theorem summarise_non_string_payload
    (KEY : option jsstring)
    (remote : Net.Request -> Completion Net.Response)
    (text : jsstring) (length : option jsstring) (w : World)
    (res : Net.Response) (json v : Json) :
  truthy KEY = true ->
  remote (Gemini.request KEY (Gemini.prompt (Gemini.target length) text)) = Normal res ->
  Net.ok res = true ->
  Net.json res = Normal json ->
  Gemini.payload json = Some v ->
  v <> JNull ->
  (forall s, v <> JStr s) ->
  Gemini.summariseWithGemini KEY remote text length w =
  (Throw (TypeError (lit "raw.match is not a function")),
   mkWorld (sent w ++ [Gemini.request KEY (Gemini.prompt (Gemini.target length) text)])
           (ui w)).
Proof.
  intros Hkey Hres Hok Hjson Hpay Hnull Hstr.
  unfold Gemini.summariseWithGemini, Gemini.mustKey, bind.
  rewrite Hkey. cbn [negb ret]. unfold Gemini.fetch.
  rewrite Hres, Hok. cbn [negb]. unfold await. rewrite Hjson.
  unfold Gemini.raw_of. rewrite Hpay.
  destruct v; try reflexivity.
  - congruence.
  - exfalso. now apply (Hstr s).
Qed.

Lemma summarise_non_string_payload_witness :
  Gemini.summariseWithGemini (Some (lit "k"))
    (Sample.answering (Sample.envelope (JNum (lit "42")))) (lit "Some text.") None
    Sample.world0 =
  (Throw (TypeError (lit "raw.match is not a function")),
   mkWorld (sent Sample.world0
              ++ [Gemini.request (Some (lit "k"))
                    (Gemini.prompt (Gemini.target None) (lit "Some text."))])
           (ui Sample.world0)).
Proof.
  refine (summarise_non_string_payload (Some (lit "k"))
            (Sample.answering (Sample.envelope (JNum (lit "42")))) (lit "Some text.")
            None Sample.world0
            (Net.mkResponse true 200 (Normal (Sample.envelope (JNum (lit "42")))))
            (Sample.envelope (JNum (lit "42"))) (JNum (lit "42"))
            eq_refl eq_refl eq_refl eq_refl eq_refl _ _).
  - discriminate.
  - intros s. discriminate.
Defined.

(** ** The size of the prompt *)




(** ** The body of the request *)

Lemma hex_val_digit (n : N) : (n < 16)%N -> hex_val (Wire.hex_digit n) = Some n.
Proof.
  intros Hn. unfold Wire.hex_digit, hex_val, is_digit.
  destruct (n <? 10)%N eqn:E.
  - apply N.ltb_lt in E.
    replace (48 <=? 48 + n)%N with true by (symmetry; apply N.leb_le; lia).
    replace (48 + n <=? 57)%N with true by (symmetry; apply N.leb_le; lia).
    cbn [andb]. f_equal. lia.
  - apply N.ltb_ge in E.
    replace (48 <=? 87 + n)%N with true by (symmetry; apply N.leb_le; lia).
    replace (87 + n <=? 57)%N with false by (symmetry; apply N.leb_gt; lia).
    replace (97 <=? 87 + n)%N with true by (symmetry; apply N.leb_le; lia).
    replace (87 + n <=? 102)%N with true by (symmetry; apply N.leb_le; lia).
    cbn [andb]. f_equal. lia.
Qed.

Lemma hex_recompose (c : N) :
  (c < 65536)%N ->
  (c / 4096 < 16 /\ (c / 256) mod 16 < 16 /\ (c / 16) mod 16 < 16 /\ c mod 16 < 16 /\
   c / 4096 * 4096 + (c / 256) mod 16 * 256 + (c / 16) mod 16 * 16 + c mod 16 = c)%N.
Proof.
  intros Hc.
  pose proof (N.div_mod c 16 ltac:(lia)) as H1.
  pose proof (N.div_mod (c / 16) 16 ltac:(lia)) as H2.
  pose proof (N.div_mod (c / 16 / 16) 16 ltac:(lia)) as H3.
  pose proof (N.mod_lt c 16 ltac:(lia)).
  pose proof (N.mod_lt (c / 16) 16 ltac:(lia)).
  pose proof (N.mod_lt (c / 256) 16 ltac:(lia)).
  rewrite N.Div0.div_div in H2, H3. change (16 * 16)%N with 256%N in *.
  rewrite N.Div0.div_div in H3. change (256 * 16)%N with 4096%N in *.
  assert (c / 4096 < 16)%N by (apply N.Div0.div_lt_upper_bound; lia).
  repeat split; try assumption; try lia.
Qed.

Lemma lex_string_u (h1 h2 h3 h4 : char16) (r acc : jsstring) :
  lex_string (92 :: 117 :: h1 :: h2 :: h3 :: h4 :: r)%N acc =
  match hex_val h1, hex_val h2, hex_val h3, hex_val h4 with
  | Some a, Some b, Some c, Some d =>
      lex_string r ((a * 4096 + b * 256 + c * 16 + d)%N :: acc)
  | _, _, _, _ => None
  end.
Proof. reflexivity. Qed.

(** The lexer of JSON strings undoes a u-escape. *)
Lemma lex_string_unicode_escape (c : char16) (rest acc : jsstring) :
  (c < 65536)%N ->
  lex_string (Wire.unicode_escape c ++ rest) acc = lex_string rest (c :: acc).
Proof.
  intros Hc. destruct (hex_recompose c Hc) as (H1 & H2 & H3 & H4 & Hsum).
  unfold Wire.unicode_escape. cbn [app]. rewrite lex_string_u.
  rewrite (hex_val_digit _ H1), (hex_val_digit _ H2), (hex_val_digit _ H3),
    (hex_val_digit _ H4).
  now rewrite Hsum.
Qed.

Lemma lex_string_plain (c : char16) (rest acc : jsstring) :
  (c =? 34)%N = false -> (c =? 92)%N = false -> (c <? 32)%N = false ->
  lex_string (c :: rest) acc = lex_string rest (c :: acc).
Proof. intros H1 H2 H3. simpl. now rewrite H1, H2, H3. Qed.

Lemma quote_chars_cons (c : char16) (r : jsstring) :
  Wire.quote_chars (c :: r) =
  if N.eqb c 8 then 92%N :: 98%N :: Wire.quote_chars r
  else if N.eqb c 9 then 92%N :: 116%N :: Wire.quote_chars r
  else if N.eqb c 10 then 92%N :: 110%N :: Wire.quote_chars r
  else if N.eqb c 12 then 92%N :: 102%N :: Wire.quote_chars r
  else if N.eqb c 13 then 92%N :: 114%N :: Wire.quote_chars r
  else if N.eqb c 34 then 92%N :: 34%N :: Wire.quote_chars r
  else if N.eqb c 92 then 92%N :: 92%N :: Wire.quote_chars r
  else if N.ltb c 32 then Wire.unicode_escape c ++ Wire.quote_chars r
  else if Wire.is_high_surrogate c then
    match r with
    | d :: r' =>
        if Wire.is_low_surrogate d then c :: d :: Wire.quote_chars r'
        else Wire.unicode_escape c ++ Wire.quote_chars r
    | [] => Wire.unicode_escape c
    end
  else if Wire.is_low_surrogate c then Wire.unicode_escape c ++ Wire.quote_chars r
  else c :: Wire.quote_chars r.
Proof. reflexivity. Qed.

(** The lexer of JSON strings undoes QuoteJSONString. *)
Lemma lex_string_quote_chars (n : nat) : forall (s rest acc : jsstring),
  (List.length s <= n)%nat ->
  Wire.utf16 s ->
  lex_string (Wire.quote_chars s ++ DQUOTE :: rest) acc = Some (rev acc ++ s, rest).
Proof.
  induction n as [|n IH]; intros s rest acc Hlen Hs.
  - destruct s; [|simpl in Hlen; lia]. simpl. now rewrite app_nil_r.
  - destruct s as [|c r]; [simpl; now rewrite app_nil_r|].
    inversion Hs as [|? ? Hc Hr]; subst.
    assert (Hnext : forall acc', lex_string (Wire.quote_chars r ++ DQUOTE :: rest) acc'
                                 = Some (rev acc' ++ r, rest))
      by (intros acc'; apply IH; [simpl in Hlen; lia|exact Hr]).
    assert (Hcons : Some (rev (c :: acc) ++ r, rest) = Some (rev acc ++ c :: r, rest))
      by (simpl; now rewrite <- app_assoc).
    rewrite quote_chars_cons.
    destruct (c =? 8)%N eqn:E8;
      [apply N.eqb_eq in E8; subst c; rewrite <- Hcons, <- Hnext; reflexivity|].
    destruct (c =? 9)%N eqn:E9;
      [apply N.eqb_eq in E9; subst c; rewrite <- Hcons, <- Hnext; reflexivity|].
    destruct (c =? 10)%N eqn:E10;
      [apply N.eqb_eq in E10; subst c; rewrite <- Hcons, <- Hnext; reflexivity|].
    destruct (c =? 12)%N eqn:E12;
      [apply N.eqb_eq in E12; subst c; rewrite <- Hcons, <- Hnext; reflexivity|].
    destruct (c =? 13)%N eqn:E13;
      [apply N.eqb_eq in E13; subst c; rewrite <- Hcons, <- Hnext; reflexivity|].
    destruct (c =? 34)%N eqn:E34;
      [apply N.eqb_eq in E34; subst c; rewrite <- Hcons, <- Hnext; reflexivity|].
    destruct (c =? 92)%N eqn:E92;
      [apply N.eqb_eq in E92; subst c; rewrite <- Hcons, <- Hnext; reflexivity|].
    destruct (c <? 32)%N eqn:E32.
    { rewrite <- app_assoc, lex_string_unicode_escape by exact Hc.
      now rewrite Hnext, Hcons. }
    destruct (Wire.is_high_surrogate c) eqn:Ehi.
    { destruct r as [|d r'].
      - rewrite lex_string_unicode_escape by exact Hc. reflexivity.
      - destruct (Wire.is_low_surrogate d) eqn:Elo.
        + inversion Hr as [|? ? Hd Hr']; subst.
          unfold Wire.is_low_surrogate in Elo.
          apply andb_true_iff in Elo as [Elo1 Elo2].
          apply N.leb_le in Elo1. apply N.leb_le in Elo2.
          cbn [app].
          rewrite (lex_string_plain c) by assumption.
          rewrite (lex_string_plain d)
            by (try apply N.eqb_neq; try apply N.ltb_ge; lia).
          rewrite (IH r' rest (d :: c :: acc)); [|simpl in Hlen; lia|exact Hr'].
          simpl. now rewrite <- !app_assoc.
        + rewrite <- app_assoc, lex_string_unicode_escape by exact Hc.
          now rewrite Hnext, Hcons. }
    destruct (Wire.is_low_surrogate c) eqn:Elow.
    { rewrite <- app_assoc, lex_string_unicode_escape by exact Hc.
      now rewrite Hnext, Hcons. }
    cbn [app]. rewrite (lex_string_plain c) by assumption.
    now rewrite Hnext, Hcons.
Qed.

Lemma body_text_split (p : jsstring) :
  Wire.body_text p =
  (lit "{" ++ quoted "contents" ++ lit ":[{" ++ quoted "parts" ++ lit ":[{" ++
   quoted "text" ++ lit ":" ++ [DQUOTE]) ++
  Wire.quote_chars p ++
  DQUOTE :: (lit "}]}]," ++ quoted "generationConfig" ++ lit ":{" ++
             quoted "temperature" ++ lit ":0.3}}").
Proof.
  unfold Wire.body_text, Wire.QuoteJSONString.
  repeat rewrite <- app_assoc. cbn [app]. repeat rewrite <- app_assoc. reflexivity.
Qed.

Lemma parse_body_text (fuel : nat) (p : jsstring) (KEY : option jsstring) :
  Wire.utf16 p ->
  parse_value (6 + fuel) (Wire.body_text p)
  = POk (Net.body (Gemini.request KEY p)) [].
Proof.
  intros Hp. rewrite body_text_split.
  cbn -[Wire.quote_chars].
  rewrite (lex_string_quote_chars (List.length p) p _ [] (Nat.le_refl _) Hp).
  cbn. reflexivity.
Qed.

(** X13. The text that [JSON.stringify] makes of the request body is JSON
    that parses back to the body itself, with the prompt intact, whatever
    the prompt holds: quotes, backslashes, line feeds, control characters
    and lone surrogates in the extracted text survive the encoding. *)
Theorem body_text_round_trip (KEY : option jsstring) (p : jsstring) :
  Wire.utf16 p ->
  JSON_parse (Wire.body_text p) = Normal (Net.body (Gemini.request KEY p)).
Proof.
  intros Hp. unfold JSON_parse.
  assert (Hn : (5 <= List.length (Wire.body_text p))%nat).
  { rewrite body_text_split, length_app.
    match goal with |- (_ <= List.length ?pre + _)%nat =>
      assert (5 <= List.length pre)%nat by (vm_compute; lia) end.
    lia. }
  replace (S (List.length (Wire.body_text p)))
    with (6 + (List.length (Wire.body_text p) - 5))%nat by lia.
  now rewrite (parse_body_text _ p KEY Hp).
Qed.

Lemma body_text_round_trip_witness :
  JSON_parse (Wire.body_text [34; 92; 10; 7; 55357; 56832; 56832; 97]%N)
  = Normal (Net.body (Gemini.request None [34; 92; 10; 7; 55357; 56832; 56832; 97]%N)).
Proof.
  apply (body_text_round_trip None [34; 92; 10; 7; 55357; 56832; 56832; 97]%N).
  unfold Wire.utf16. repeat constructor.
Defined.

(** ** The hint, the preview and the dispatcher *)

(** X14. For every selected file the three places that look at the media
    type agree: the hint names the PDF strategy, the OCR strategy or the
    plain-text strategy exactly when [extractTextFromFile] takes it, and a
    preview address is made for PDF and image files and for no others. *)
Theorem hint_matches_dispatch
    (getDocument : list N -> Completion Pdf.PDFDocumentProxy)
    (recognize : File -> jsstring -> Completion Ocr.RecognizeResult)
    (createObjectURL : File -> jsstring)
    (f : File) :
  (View.helper (Some f) = View.PDF_HINT /\
   App.extractTextFromFile getDocument recognize f = Pdf.extractPdfText getDocument f /\
   View.filePreviewUrl createObjectURL (Some f) = Some (createObjectURL f))
  \/
  (View.helper (Some f) = View.IMAGE_HINT /\
   App.extractTextFromFile getDocument recognize f = Ocr.ocrImage recognize f /\
   View.filePreviewUrl createObjectURL (Some f) = Some (createObjectURL f))
  \/
  (View.helper (Some f) = View.TEXT_HINT /\
   App.extractTextFromFile getDocument recognize f = await (text f) /\
   View.filePreviewUrl createObjectURL (Some f) = None).
Proof.
  unfold View.helper, View.filePreviewUrl, App.extractTextFromFile.
  destruct (App.strict_eq (type f) App.PDF_TYPE).
  - left. repeat split.
  - destruct (App.opt_startsWith (type f) App.IMAGE_PREFIX).
    + right; left. repeat split.
    + right; right. repeat split.
Qed.

(** ** Copying the summary *)

Section CopyFacts.

Variable number_string : jsstring -> jsstring.
Variable number_truthy : jsstring -> bool.
Variable writeText : jsstring -> Completion unit.

Lemma bullets_strings (ks : list jsstring) :
  View.bullets number_string (map JStr ks)
  = Normal (map (fun k => lit "- " ++ k) ks).
Proof.
  induction ks as [|k ks IH]; [reflexivity|].
  simpl. simpl in IH. now rewrite IH.
Qed.

(** The text to copy for a result with a string summary and string key
    points. *)
Lemma textToCopy_well_formed (props : list (jsstring * Json))
    (s : jsstring) (ks : list jsstring) :
  get_prop props (lit "summary") = Some (JStr s) ->
  get_prop props (lit "key_points") = Some (JArr (map JStr ks)) ->
  View.textToCopy number_string (JObj props)
  = Normal (lit "## Summary" ++ [LF; LF] ++ s ++ [LF; LF] ++
            lit "## Key Points" ++ [LF; LF] ++
            join [LF] (map (fun k => lit "- " ++ k) ks)).
Proof.
  intros Hs Hk. unfold View.textToCopy, View.field, View.interpolate,
    View.key_point_lines.
  rewrite Hs, Hk. cbn [View.to_string]. now rewrite bullets_strings.
Qed.

(** The text to copy for a result whose key points are not an array. *)
Lemma textToCopy_no_array (result : Json) :
  (forall ks, View.field result (lit "key_points") <> Some (JArr ks)) ->
  exists e, View.textToCopy number_string result = Throw e.
Proof.
  intros Hk. unfold View.textToCopy.
  destruct (View.interpolate number_string (View.field result (lit "summary")))
    as [s|e]; [|now exists e].
  unfold View.key_point_lines.
  destruct (View.field result (lit "key_points")) as [[| | | |ks|]|];
    try (eexists; reflexivity).
  exfalso. now apply (Hk ks).
Qed.

End CopyFacts.

(** X15. Copying a result whose summary is a string and whose key points
    are strings puts on the clipboard the summary under the heading
    "## Summary" and the key points, one per line and each after "- ",
    under the heading "## Key Points"; the [copied] flag is set and a
    timer of 2500 ms is left to clear it. When the page may not write to
    the clipboard, the only effect is the alert "Failed to copy text.". *)
Theorem handleCopy_well_formed
    (number_string : jsstring -> jsstring)
    (number_truthy : jsstring -> bool)
    (writeText : jsstring -> Completion unit)
    (props : list (jsstring * Json)) (s : jsstring) (ks : list jsstring)
    (d : View.Desk) :
  get_prop props (lit "summary") = Some (JStr s) ->
  get_prop props (lit "key_points") = Some (JArr (map JStr ks)) ->
  let t := lit "## Summary" ++ [LF; LF] ++ s ++ [LF; LF] ++
           lit "## Key Points" ++ [LF; LF] ++
           join [LF] (map (fun k => lit "- " ++ k) ks) in
  (writeText t = Normal tt ->
   View.handleCopy number_string number_truthy writeText (Some (JObj props)) d
   = (Normal tt,
      View.mkDesk (Some t) true (View.timers d ++ [2500%Z]) (View.alerts d))) /\
  (forall err, writeText t = Throw err ->
   View.handleCopy number_string number_truthy writeText (Some (JObj props)) d
   = (Normal tt,
      View.mkDesk (View.clipboard d) (View.copied d) (View.timers d)
                  (View.alerts d ++ [lit "Failed to copy text."]))).
Proof.
  intros Hs Hk t.
  assert (Ht : View.textToCopy number_string (JObj props) = Normal t)
    by now apply textToCopy_well_formed.
  unfold View.handleCopy. cbn [View.to_boolean negb]. unfold bind, await.
  rewrite Ht. split.
  - intros Hw. now rewrite Hw.
  - intros err Hw. now rewrite Hw.
Qed.

Lemma handleCopy_well_formed_witness :
  View.handleCopy (fun lx => lx) (fun _ => true) (fun _ => Normal tt)
    (Some Sample.reply_object) (View.mkDesk None false [] [])
  = (Normal tt,
     View.mkDesk
       (Some (lit "## Summary" ++ [LF; LF] ++ lit "A" ++ [LF; LF] ++
              lit "## Key Points" ++ [LF; LF] ++ lit "- x" ++ [LF] ++ lit "- y"))
       true [2500%Z] []).
Proof.
  exact (proj1 (handleCopy_well_formed (fun lx => lx) (fun _ => true)
                  (fun _ => Normal tt)
                  [ (lit "summary", JStr (lit "A"));
                    (lit "key_points", JArr [JStr (lit "x"); JStr (lit "y")]) ]
                  (lit "A") [lit "x"; lit "y"] (View.mkDesk None false [] [])
                  eq_refl eq_refl)
               eq_refl).
Defined.

(** X16. Copying a result whose [key_points] is missing or is not an
    array, as the empty object of a reply without payload is, throws
    before the clipboard is touched: nothing is written, no flag is set and
    no alert is shown. *)
Theorem handleCopy_without_key_points
    (number_string : jsstring -> jsstring)
    (number_truthy : jsstring -> bool)
    (writeText : jsstring -> Completion unit)
    (result : Json) (d : View.Desk) :
  View.to_boolean number_truthy (Some result) = true ->
  (forall ks, View.field result (lit "key_points") <> Some (JArr ks)) ->
  exists e,
    View.handleCopy number_string number_truthy writeText (Some result) d
    = (Throw e, d).
Proof.
  intros Htrue Hk.
  destruct (textToCopy_no_array number_string result Hk) as [e He].
  exists e. unfold View.handleCopy. rewrite Htrue. cbn [negb].
  unfold bind, await. now rewrite He.
Qed.

Lemma handleCopy_without_key_points_witness :
  exists e,
    View.handleCopy (fun lx => lx) (fun _ => true) (fun _ => Normal tt)
      (Some (JObj [])) (View.mkDesk None false [] [])
    = (Throw e, View.mkDesk None false [] []).
Proof.
  refine (handleCopy_without_key_points (fun lx => lx) (fun _ => true)
            (fun _ => Normal tt) (JObj []) (View.mkDesk None false [] [])
            eq_refl _).
  intros ks. discriminate.
Defined.
